(** * avocado.core.suite: the test-suite aggregate

    A shallow embedding of [avocado/core/suite.py]: configuration layering,
    the conversion of resolver resolutions into runnables, the mutual
    exclusion of test parameters and variants, dry-run conversion, variant
    expansion, the status projection and the [from_config] factory.

    Python dictionaries with string keys are [gmap string _]; the suite
    object is a record threaded through a small state-and-exception monad,
    because the lazily cached properties ([test_parameters], [variants])
    write to the object they are read from. *)

From Stdlib Require Import ZArith String List Bool Lia.
From stdpp Require Import base option gmap strings list fin_maps.

Local Open Scope string_scope.
Local Open Scope Z_scope.

(** ** Python values stored in a configuration mapping *)

#[local] Set Warnings "-register-all".

Inductive pyval : Type :=
| PNone
| PBool (b : bool)
| PInt (z : Z)
| PStr (s : string)
| PList (l : list pyval)
| PTuple (l : list pyval).

(** [bool(v)]: the truth value Python gives an object in [if v:]. *)
Definition truthy (v : pyval) : bool :=
  match v with
  | PNone => false
  | PBool b => b
  | PInt z => negb (z =? 0)
  | PStr s => negb (String.eqb s "")
  | PList l | PTuple l => match l with [] => false | _ => true end
  end.

(** [d.get(key)] yields [None] for an absent key, so its truth value is
    that of the stored object, and [False] when there is none. *)
Definition truthy_opt (o : option pyval) : bool :=
  match o with
  | Some v => truthy v
  | None => false
  end.

(** [o == "s"] for the result [o] of [d.get(key)] and a string literal. *)
Definition eq_str (o : option pyval) (s : string) : bool :=
  match o with
  | Some (PStr s') => String.eqb s' s
  | _ => false
  end.

(** The numeric value under which [bool] and [int] compare and hash. *)
Definition num_of (v : pyval) : option Z :=
  match v with
  | PBool b => Some (if b then 1 else 0)
  | PInt z => Some z
  | _ => None
  end.

(** [a == b] on the modelled values. *)
Fixpoint py_eqb (a b : pyval) {struct a} : bool :=
  let fix all2 (xs ys : list pyval) {struct xs} : bool :=
    match xs, ys with
    | [], [] => true
    | x :: xs', y :: ys' => py_eqb x y && all2 xs' ys'
    | _, _ => false
    end in
  match a, b with
  | PNone, PNone => true
  | PStr s, PStr t => String.eqb s t
  | PList xs, PList ys => all2 xs ys
  | PTuple xs, PTuple ys => all2 xs ys
  | _, _ =>
      match num_of a, num_of b with
      | Some x, Some y => x =? y
      | _, _ => false
      end
  end.

(** Whether [hash(v)] succeeds: lists are unhashable, a tuple is hashable
    when all its items are. *)
Fixpoint hashable (v : pyval) : bool :=
  match v with
  | PList _ => false
  | PTuple l => forallb hashable l
  | _ => true
  end.

(** ** Exceptions and results *)

Inductive exn : Type :=
| TestSuiteError (msg : string)
| OptionValidationError (msg : string)
| JobTestSuiteReferenceResolutionError (details : string)
| IOError (details : string)
| ValueError (details : string)
| TypeError (details : string)
| OtherError (details : string).

(** The text of [str(e)] / [f"{e}"] for an exception object. *)
Definition exn_text (e : exn) : string :=
  match e with
  | TestSuiteError m | OptionValidationError m
  | JobTestSuiteReferenceResolutionError m
  | IOError m | ValueError m | TypeError m | OtherError m => m
  end.

Inductive Res (A : Type) : Type :=
| Ok (a : A)
| Raise (e : exn).
Arguments Ok {A} a.
Arguments Raise {A} e.

(** ** Iteration and unpacking *)

Fixpoint chars (s : string) : list pyval :=
  match s with
  | EmptyString => []
  | String c s' => PStr (String c EmptyString) :: chars s'
  end.

(** [for x in v]: the items of a list, tuple or string; other modelled
    objects are not iterable. *)
Definition py_iter (v : pyval) : Res (list pyval) :=
  match v with
  | PList l | PTuple l => Ok l
  | PStr s => Ok (chars s)
  | PNone => Raise (TypeError "'NoneType' object is not iterable")
  | PBool _ => Raise (TypeError "'bool' object is not iterable")
  | PInt _ => Raise (TypeError "'int' object is not iterable")
  end.

(** [name, value = item]. *)
Definition unpack2 (item : pyval) : Res (pyval * pyval) :=
  match py_iter item with
  | Raise e => Raise e
  | Ok [a; b] => Ok (a, b)
  | Ok (_ :: _ :: _ :: _) => Raise (ValueError "too many values to unpack (expected 2)")
  | Ok _ => Raise (ValueError "not enough values to unpack (expected 2)")
  end.

(** A dictionary with arbitrary hashable keys, in insertion order. *)
Abbreviation pydict := (list (pyval * pyval)).

(** [d[k] = v]: an equal key keeps its place and takes the new value. *)
Fixpoint dict_setitem (k v : pyval) (d : pydict) : pydict :=
  match d with
  | [] => [(k, v)]
  | (k', v') :: d' =>
      if py_eqb k' k then (k', v) :: d' else (k', v') :: dict_setitem k v d'
  end.

(** [{name: value for name, value in items}], accumulated left to right. *)
Fixpoint dict_of_pairs (items : list pyval) (acc : pydict) : Res pydict :=
  match items with
  | [] => Ok acc
  | item :: rest =>
      match unpack2 item with
      | Raise e => Raise e
      | Ok (name, value) =>
          if hashable name
          then dict_of_pairs rest (dict_setitem name value acc)
          else Raise (TypeError "unhashable type")
      end
  end.

(** Truth value of a dictionary: non-empty. *)
Definition dict_truthy (d : pydict) : bool :=
  match d with [] => false | _ => true end.

(** ** Configuration mappings *)

Abbreviation Config := (gmap string pyval).

(** [base.update(new)]: every key of [new] takes its value from [new]. *)
Definition dict_update (base new : Config) : Config := new ∪ base.

(** [if d: base.update(d)] for an optional layer [d]: [None] and the empty
    dictionary are both falsy and leave [base] as it is. *)
Definition update_if (base : Config) (layer : option Config) : Config :=
  match layer with
  | Some d => if decide (d = ∅) then base else dict_update base d
  | None => base
  end.

(** ** Parameter trees and variants *)

(** Modelled from the spec: [avocado.core.tree.TreeNode] is not part of this
    module.  Test parameters are "wrapped into a single-node tree under a
    synthetic root path", so a node carries its name and its value mapping;
    [TreeNode()] is the unnamed root with no values. *)
Record TreeNode : Type := {
  tn_name : string;
  value : pydict
}.

Definition TreeNode_new : TreeNode := {| tn_name := ""; value := [] |}.

(** Modelled from the spec: [get_node("/", True)] on a fresh root is that
    root (the "single root path"). *)
Definition get_node_root (n : TreeNode) : TreeNode := n.

Definition set_value (d : pydict) (n : TreeNode) : TreeNode :=
  {| tn_name := tn_name n; value := d |}.

(** What the ["variant"] entry holds: the varianter yields a list of leaf
    nodes, the test-parameters branch stores one node. *)
Inductive payload : Type :=
| Leaves (l : list TreeNode)
| Node (n : TreeNode).

(** The dictionary [{"variant": _, "variant_id": _, "paths": _}]. *)
Record Variant : Type := {
  v_variant : payload;
  variant_id : option string;
  paths : list string
}.

(** Modelled from the spec: the outcome of one reference
    ([avocado.core.resolver.ReferenceResolutionResult]), "SUCCESS | other
    terminal states". *)
Inductive ReferenceResolutionResult : Type :=
| SUCCESS
| NOTFOUND
| ERROR
| CORRUPT.

#[global] Instance ReferenceResolutionResult_eq_dec :
  EqDecision ReferenceResolutionResult.
Proof. solve_decision. Defined.

(** ** Runnables, resolutions and the collaborators of the suite *)

Section Suite.

(** The json-serialisable form [dump_variant] gives a variant. *)
Context {Dumped : Type}.

(** Modelled from the spec: [avocado.core.nrunner.Runnable] is not part of
    this module; "kind, a kind-specific default configuration subset, a set
    of tags (mapping from tag name to set of values, possibly empty), and an
    optional bound variant". *)
Record Runnable : Type := {
  kind : string;
  uri : option string;
  tags : option (gmap string (gset string));
  default_config : Config;
  variant : option Dumped
}.

Definition set_kind (k : string) (r : Runnable) : Runnable :=
  {| kind := k; uri := uri r; tags := tags r;
     default_config := default_config r; variant := variant r |}.

Definition set_default_config (c : Config) (r : Runnable) : Runnable :=
  {| kind := kind r; uri := uri r; tags := tags r;
     default_config := c; variant := variant r |}.

Definition set_variant (v : option Dumped) (r : Runnable) : Runnable :=
  {| kind := kind r; uri := uri r; tags := tags r;
     default_config := default_config r; variant := v |}.

(** Modelled from the spec: [avocado.core.resolver.ReferenceResolution],
    "a result status and, when successful, an ordered sequence of Runnable
    units" (the attribute [resolutions] of the resolution object). *)
Record ReferenceResolution : Type := {
  reference : string;
  result : ReferenceResolutionResult;
  rr_resolutions : list Runnable
}.

(** The capabilities [suite.py] imports from the rest of avocado. *)
Class Collaborators : Type := {
  (** [settings.as_dict()]: the registered defaults *)
  settings_as_dict : Config;
  (** [Runnable.filter_runnable_config(kind, config)] *)
  filter_runnable_config : string -> Config -> Config;
  (** [avocado.core.tags.filter_tags_on_runnables] *)
  filter_tags_on_runnables :
    list ReferenceResolution -> pyval -> option pyval -> option pyval ->
    list Runnable;
  (** [os.path.exists] and [HintParser] *)
  path_exists : string -> bool;
  Hint : Type;
  HintParser : string -> Hint;
  (** [avocado.core.resolver.resolve] *)
  resolve :
    option pyval -> option Hint -> option pyval -> Config ->
    Res (list ReferenceResolution);
  (** [str(uuid4())] *)
  uuid4_str : string;
  (** The variant-generation engine: [Varianter()], [is_parsed], [parse]
      (the engine after parsing, or the exception raised), [itertests]
      (finite and restartable), the truth value of the engine object
      ("has at least one variant") *)
  Varianter : Type;
  Varianter_new : Varianter;
  is_parsed : Varianter -> bool;
  parse : Varianter -> Config -> Res Varianter;
  itertests : Varianter -> list Variant;
  varianter_truthy : Varianter -> bool;
  (** [is_empty_variant] and [dump_variant] of [avocado.core.varianter] *)
  is_empty_variant : payload -> bool;
  dump_variant : Variant -> Dumped;
  (** the runner object found by [SuiteRunnerDispatcher] *)
  Runner : Type
}.

Context `{!Collaborators}.

(** ** resolutions_to_runnables *)

(** The body of [for runnable in resolution.resolutions]. *)
Definition configure (config : Config) (runnable : Runnable) : Runnable :=
  set_default_config (filter_runnable_config (kind runnable) config) runnable.

(** The loop over the resolutions, appending to the local list [result]
    (here [out]). *)
Fixpoint collect_runnables (config : Config)
    (resolutions : list ReferenceResolution) (out : list Runnable)
    : list Runnable :=
  match resolutions with
  | [] => out
  | resolution :: rest =>
      if decide (result resolution ≠ SUCCESS)
      then collect_runnables config rest out
      else collect_runnables config rest
             (fold_left (fun acc runnable => (acc ++ [configure config runnable])%list)
                        (rr_resolutions resolution) out)
  end.

Definition resolutions_to_runnables
    (resolutions : list ReferenceResolution) (config : Config)
    : list Runnable :=
  let filter_by_tags := config !! "filter.by_tags.tags" in
  let include_empty := config !! "filter.by_tags.include_empty" in
  let include_empty_key := config !! "filter.by_tags.include_empty_key" in
  match filter_by_tags with
  | Some t =>
      if truthy t
      then filter_tags_on_runnables resolutions t include_empty
             include_empty_key
      else collect_runnables config resolutions []
  | None => collect_runnables config resolutions []
  end.

(** ** The suite object *)

(** [tests] is held by value: what the methods do to the runnables of the
    test list is recorded in [tests].  The runnable objects that
    [resolutions] shares with [tests] in Python are not followed there, so
    [resolutions] stands for the list as the resolver returned it and no
    statement below speaks of the runnables inside it.  The entries of
    [tests] are runnables; a list holding [None] is not represented. *)
Record TestSuite : Type := {
  name : string;
  tests : option (list Runnable);
  resolutions : option (list ReferenceResolution);
  enabled : bool;
  config : Config;
  _variants : option Varianter;
  _references : option pyval;
  _runner : option Runner;
  _test_parameters : option pydict
}.

Definition set_tests (t : option (list Runnable)) (s : TestSuite) : TestSuite :=
  {| name := name s; tests := t; resolutions := resolutions s;
     enabled := enabled s; config := config s; _variants := _variants s;
     _references := _references s; _runner := _runner s;
     _test_parameters := _test_parameters s |}.

Definition set_variants (v : option Varianter) (s : TestSuite) : TestSuite :=
  {| name := name s; tests := tests s; resolutions := resolutions s;
     enabled := enabled s; config := config s; _variants := v;
     _references := _references s; _runner := _runner s;
     _test_parameters := _test_parameters s |}.

Definition set_test_parameters (p : option pydict) (s : TestSuite)
    : TestSuite :=
  {| name := name s; tests := tests s; resolutions := resolutions s;
     enabled := enabled s; config := config s; _variants := _variants s;
     _references := _references s; _runner := _runner s;
     _test_parameters := p |}.

(** ** Methods: a state monad over the suite, with exceptions *)

Definition M (A : Type) : Type := TestSuite -> Res (A * TestSuite).

Definition ret {A} (a : A) : M A := fun self => Ok (a, self).

Definition bind {A B} (m : M A) (f : A -> M B) : M B :=
  fun self =>
    match m self with
    | Ok (a, self') => f a self'
    | Raise e => Raise e
    end.

Definition raise {A} (e : exn) : M A := fun _ => Raise e.

Definition get : M TestSuite := fun self => Ok (self, self).

Definition modify (f : TestSuite -> TestSuite) : M unit :=
  fun self => Ok (tt, f self).

Definition lift {A} (r : Res A) : M A :=
  fun self => match r with Ok a => Ok (a, self) | Raise e => Raise e end.

#[local] Instance M_ret : MRet M := @ret.
#[local] Instance M_bind : MBind M := fun A B f m => bind m f.

(** [for x in l: acc = body(acc, x)] where the body may touch the suite. *)
Fixpoint for_each {A B} (body : B -> A -> M B) (l : list A) (acc : B) : M B :=
  match l with
  | [] => ret acc
  | x :: rest => acc' ← body acc x; for_each body rest acc'
  end.

(** The property [size]. *)
Definition size (self : TestSuite) : Z :=
  match tests self with
  | None => 0
  | Some l => Z.of_nat (length l)
  end.

(** The property [test_parameters], cached in [_test_parameters]. *)
Definition test_parameters : M pydict :=
  self ← get;
  match _test_parameters self with
  | Some d => ret d
  | None =>
      items ← lift (py_iter (default (PList [])
                                   (config self !! "run.test_parameters")));
      d ← lift (dict_of_pairs items []);
      modify (set_test_parameters (Some d));;
      ret d
  end.

(** The property [variants], cached in [_variants]. *)
Definition variants : M Varianter :=
  self ← get;
  match _variants self with
  | Some v => ret v
  | None =>
      let variants := Varianter_new in
      variants ←
        (if negb (is_parsed variants)
         then match parse variants (config self) with
              | Ok v => ret v
              | Raise (IOError details) | Raise (ValueError details) =>
                  raise (OptionValidationError
                           ("Unable to parse variant: " ++ details))
              | Raise e => raise e
              end
         else ret variants);
      modify (set_variants (Some variants));;
      ret variants
  end.

(** The loop of [_has_both_parameters_and_variants], leaving at the first
    variant that is not empty. *)
Fixpoint any_non_empty (vs : list Variant) : bool :=
  match vs with
  | [] => false
  | variant :: rest =>
      let var := v_variant variant in
      if negb (is_empty_variant var) then true else any_non_empty rest
  end.

Definition _has_both_parameters_and_variants : M bool :=
  tp ← test_parameters;
  if negb (dict_truthy tp) then ret false
  else
    vs ← variants;
    ret (any_non_empty (itertests vs)).

Definition err_msg : string :=
  "Specifying test parameters (with config entry "
  ++ String (Ascii.ascii_of_nat 34) "run.test_parameters"
  ++ String (Ascii.ascii_of_nat 34) " or command line "
  ++ String (Ascii.ascii_of_nat 34) "-p"
  ++ String (Ascii.ascii_of_nat 34) ") along with "
  ++ "any varianter plugin (run "
  ++ String (Ascii.ascii_of_nat 34) "avocado plugins"
  ++ String (Ascii.ascii_of_nat 34) " for a list)"
  ++ " is not yet supported. Please use one or the other.".

Definition _check_both_parameters_and_variants : M unit :=
  both ← _has_both_parameters_and_variants;
  if (both : bool) then raise (TestSuiteError err_msg) else ret tt.

(** [for runnable in self.tests]: iterating [None] is a [TypeError]. *)
Definition iter_tests : M (list Runnable) :=
  self ← get;
  match tests self with
  | Some l => ret l
  | None => raise (TypeError "'NoneType' object is not iterable")
  end.

Definition _convert_to_dry_run : M unit :=
  self ← get;
  if eq_str (config self !! "run.suite_runner") "nrunner"
  then
    l ← iter_tests;
    modify (set_tests (Some (map (set_kind "dry-run") l)))
  else ret tt.

(** The constructor: the object as first assigned, then the two checks. *)
Definition __init__ (name : string) (config : option Config)
    (tests : option (list Runnable)) (job_config : option Config)
    (resolutions : option (list ReferenceResolution)) (enabled : bool)
    : Res TestSuite :=
  let cfg := settings_as_dict in
  let cfg := update_if cfg job_config in
  let cfg := update_if cfg config in
  let self := {| name := name; tests := tests; resolutions := resolutions;
                 enabled := enabled; config := cfg; _variants := None;
                 _references := None; _runner := None;
                 _test_parameters := None |} in
  match (_check_both_parameters_and_variants;;
         if truthy_opt (cfg !! "run.dry_run.enabled")
         then _convert_to_dry_run
         else ret tt) self with
  | Ok (_, self') => Ok self'
  | Raise e => Raise e
  end.

(** ** Status *)

Inductive TestSuiteStatus : Type :=
| RESOLUTION_NOT_STARTED
| TESTS_NOT_FOUND
| TESTS_FOUND
| UNKNOWN.

Definition status (self : TestSuite) : TestSuiteStatus :=
  match tests self with
  | None => RESOLUTION_NOT_STARTED
  | Some _ =>
      if size self =? 0 then TESTS_NOT_FOUND
      else if size self >? 0 then TESTS_FOUND
      else UNKNOWN
  end.

(** ** Variant expansion *)

(** The local function [add_variant]: a deep copy of the runnable with the
    dumped variant attached, appended to [runnable_with_variant]. *)
Definition add_variant (runnable_with_variant : list Runnable)
    (runnable : Runnable) (variant : Variant) : list Runnable :=
  let runnable := set_variant (Some (dump_variant variant)) runnable in
  (runnable_with_variant ++ [runnable])%list.

(** The variant built from the test parameters. *)
Definition parameters_variant (tp : pydict) : Variant :=
  let paths := ["/"] in
  let tree_nodes := get_node_root TreeNode_new in
  let tree_nodes := set_value tp tree_nodes in
  {| v_variant := Node tree_nodes; variant_id := None; paths := paths |}.

Definition _get_test_variants : M (list Runnable) :=
  let runnable_with_variant := [] in
  tp ← test_parameters;
  if dict_truthy tp then
    let variant := parameters_variant tp in
    l ← iter_tests;
    ret (fold_left (fun acc runnable => add_variant acc runnable variant)
           l runnable_with_variant)
  else
    vs ← variants;
    if varianter_truthy vs then
      self ← get;
      let execution_order := config self !! "run.execution_order" in
      if eq_str execution_order "variants-per-test" then
        l ← iter_tests;
        for_each (fun acc runnable =>
                    vs ← variants;
                    ret (fold_left
                           (fun acc variant => add_variant acc runnable variant)
                           (itertests vs) acc))
                 l runnable_with_variant
      else if eq_str execution_order "tests-per-variant" then
        vs ← variants;
        for_each (fun acc variant =>
                    l ← iter_tests;
                    ret (fold_left
                           (fun acc runnable => add_variant acc runnable variant)
                           l acc))
                 (itertests vs) runnable_with_variant
      else ret runnable_with_variant
    else ret runnable_with_variant.

(** ** The factory *)

Definition _from_config_with_resolver (config : Config)
    (name : option string) : Res TestSuite :=
  let ignore_missing := config !! "run.ignore_missing_references" in
  let references := config !! "resolver.references" in
  let hint_filepath := ".avocado.hint" in
  let hint :=
    if path_exists hint_filepath then Some (HintParser hint_filepath)
    else None in
  match resolve references hint ignore_missing config with
  | Raise (JobTestSuiteReferenceResolutionError details) =>
      Raise (TestSuiteError details)
  | Raise e => Raise e
  | Ok resolutions =>
      let runnables := resolutions_to_runnables resolutions config in
      let name := match name with Some n => n | None => uuid4_str end in
      __init__ name (Some config) (Some runnables) None (Some resolutions)
        true
  end.

(** [if not suite.tests]: [None] and the empty list are falsy. *)
Definition tests_truthy (self : TestSuite) : bool :=
  match tests self with
  | Some (_ :: _) => true
  | _ => false
  end.

Definition no_tests_msg : string :=
  "Test Suite could not be created. No test references "
  ++ "provided nor any other arguments resolved into tests".

(** [if suite.test_parameters or suite.variants:
         suite.tests = suite._get_test_variants()] *)
Definition expand_tests : M unit :=
  tp ← test_parameters;
  expand ← (if dict_truthy tp then ret true
            else vs ← variants; ret (varianter_truthy vs));
  if (expand : bool)
  then l ← _get_test_variants; modify (set_tests (Some l))
  else ret tt.

(** The closing check of [from_config] on the merged [config]. *)
Definition check_tests_found (config : Config) : M unit :=
  if negb (truthy_opt (config !! "run.ignore_missing_references"))
  then
    self ← get;
    if negb (tests_truthy self)
    then raise (TestSuiteError no_tests_msg)
    else ret tt
  else ret tt.

(** The configuration [from_config] hands to the resolver and constructor:
    [config.update(suite_config)] is not guarded. *)
Definition from_config_merge (suite_config : Config)
    (job_config : option Config) : Config :=
  let config := settings_as_dict in
  let config := update_if config job_config in
  dict_update config suite_config.

Definition from_config (config : Config) (name : option string)
    (job_config : option Config) : Res TestSuite :=
  let suite_config := config in
  let config := from_config_merge suite_config job_config in
  match _from_config_with_resolver config name with
  | Raise e => Raise e
  | Ok suite =>
      match (expand_tests;; check_tests_found config) suite with
      | Ok (_, suite') => Ok suite'
      | Raise e => Raise e
      end
  end.

End Suite.

Arguments Runnable Dumped : clear implicits.
Arguments ReferenceResolution Dumped : clear implicits.
Arguments Collaborators Dumped : clear implicits.
Arguments TestSuite Dumped {_}.
Arguments M Dumped {_} A.

(** ** A concrete set of collaborators

    A small resolver and variant engine to run the suite on: a reference
    resolves to one [exec-test] runnable, the empty reference is not found,
    and the variants are the names listed under ["demo.variants"]. *)

Module Demo.

Definition variant_of (v : pyval) : Variant :=
  match v with
  | PStr s =>
      {| v_variant := Leaves [ {| tn_name := s; value := [(PStr "x", PStr s)] |} ];
         variant_id := Some s; paths := ["/run/*"] |}
  | _ => {| v_variant := Leaves []; variant_id := None; paths := ["/run/*"] |}
  end.

Definition leaf_is_empty (n : TreeNode) : bool :=
  match value n with [] => true | _ => false end.

Definition demo_parse (cfg : Config) : Res (list Variant) :=
  match cfg !! "demo.variants" with
  | None => Ok []
  | Some (PList l) => Ok (map variant_of l)
  | Some _ => Raise (ValueError "demo.variants is not a list")
  end.

Definition exec_test (s : string) : Runnable Variant :=
  {| kind := "exec-test"; uri := Some s; tags := None;
     default_config := ∅; variant := None |}.

Definition resolve_one (v : pyval) : ReferenceResolution Variant :=
  match v with
  | PStr "" =>
      {| reference := ""; result := NOTFOUND; rr_resolutions := [] |}
  | PStr s =>
      {| reference := s; result := SUCCESS; rr_resolutions := [exec_test s] |}
  | _ => {| reference := ""; result := ERROR; rr_resolutions := [] |}
  end.

Definition demo_resolve (references : option pyval)
    : Res (list (ReferenceResolution Variant)) :=
  match references with
  | Some (PList l) => Ok (map resolve_one l)
  | None => Ok []
  | Some _ => Raise (JobTestSuiteReferenceResolutionError "bad references")
  end.

Definition defaults : Config :=
  <["run.suite_runner" := PStr "nrunner"]>
  (<["run.execution_order" := PStr "variants-per-test"]>
  (<["run.test_parameters" := PList []]>
  (<["run.dry_run.enabled" := PBool false]> ∅))).

#[global] Instance demo : Collaborators Variant := {|
  settings_as_dict := defaults;
  filter_runnable_config := fun k c =>
    match c !! ("runner." ++ k) with
    | Some v => {[ "runner." ++ k := v ]}
    | None => ∅
    end;
  filter_tags_on_runnables := fun rs _ _ _ =>
    flat_map (fun r => if decide (result r = SUCCESS)
                       then rr_resolutions r else []) rs;
  path_exists := fun _ => false;
  Hint := unit;
  HintParser := fun _ => tt;
  resolve := fun references _ _ _ => demo_resolve references;
  uuid4_str := "5f0c2a66-9f7e-4c11-8a55-0d6a3b1c7e42";
  Varianter := list Variant;
  Varianter_new := [];
  is_parsed := fun _ => false;
  parse := fun _ cfg => demo_parse cfg;
  itertests := fun vs => vs;
  varianter_truthy := fun vs => match vs with [] => false | _ => true end;
  is_empty_variant := fun p =>
    match p with Leaves l => forallb leaf_is_empty l | Node _ => false end;
  dump_variant := fun v => v;
  Runner := unit
|}.

Definition two_tests : list (Runnable Variant) :=
  [exec_test "/bin/true"; exec_test "/bin/false"].

Definition with_variants : Config :=
  {[ "demo.variants" := PList [PStr "a"; PStr "b"; PStr "c"] ]}.

Definition with_parameters : Config :=
  {[ "run.test_parameters" := PList [PTuple [PStr "sleep"; PStr "1"]] ]}.

Definition with_both : Config := with_parameters ∪ with_variants.

End Demo.

(** * Properties *)

Section Properties.

Context {Dumped : Type} `{!Collaborators Dumped}.

(** ** The monad: unfolding and frame rules *)

Ltac monad_norm := unfold mbind, mret, M_bind, M_ret in *.

(** [keeps proj m]: running [m] leaves the attribute [proj] of the suite as
    it was, whenever [m] returns. *)
Definition keeps {A X} (proj : TestSuite Dumped -> X) (m : M Dumped A) : Prop :=
  forall s a s', m s = Ok (a, s') -> proj s' = proj s.

Lemma keeps_ret {A X} (proj : TestSuite Dumped -> X) (a : A) :
  keeps proj (ret a).
Proof. intros s b s' E. unfold ret in E. congruence. Qed.

Lemma keeps_raise {A X} (proj : TestSuite Dumped -> X) e :
  keeps proj (raise e : M Dumped A).
Proof. intros s b s' E. discriminate E. Qed.

Lemma keeps_get {X} (proj : TestSuite Dumped -> X) : keeps proj get.
Proof. intros s b s' E. unfold get in E. congruence. Qed.

Lemma keeps_lift {A X} (proj : TestSuite Dumped -> X) (r : Res A) :
  keeps proj (lift r).
Proof. intros s b s' E. unfold lift in E. destruct r; congruence. Qed.

Lemma keeps_modify {X} (proj : TestSuite Dumped -> X) f :
  (forall s, proj (f s) = proj s) -> keeps proj (modify f).
Proof. intros Hf s b s' E. unfold modify in E. inversion E. apply Hf. Qed.

Lemma keeps_bind {A B X} (proj : TestSuite Dumped -> X)
    (m : M Dumped A) (f : A -> M Dumped B) :
  keeps proj m -> (forall a, keeps proj (f a)) -> keeps proj (bind m f).
Proof.
  intros Hm Hf s b s' E. unfold bind in E.
  destruct (m s) as [[a s1]|e] eqn:Em; [|discriminate].
  rewrite (Hf a _ _ _ E). eapply Hm, Em.
Qed.

Lemma keeps_for_each {A B X} (proj : TestSuite Dumped -> X)
    (body : B -> A -> M Dumped B) l :
  (forall acc x, keeps proj (body acc x)) ->
  forall acc, keeps proj (for_each body l acc).
Proof.
  intros Hb. induction l as [|x l IH]; intros acc; simpl.
  - apply keeps_ret.
  - monad_norm. apply keeps_bind; [apply Hb | intros a; apply IH].
Qed.

Ltac keeps_step :=
  first [ apply keeps_ret | apply keeps_raise | apply keeps_get
        | apply keeps_lift
        | apply keeps_modify; intros []; reflexivity
        | apply keeps_bind; [|intros ?]
        | apply keeps_for_each; intros ? ? ].

Ltac keeps_auto := monad_norm; repeat (keeps_step || case_match).

Lemma test_parameters_keeps_config : keeps config test_parameters.
Proof. unfold test_parameters. keeps_auto. Qed.

Lemma test_parameters_keeps_tests : keeps tests test_parameters.
Proof. unfold test_parameters. keeps_auto. Qed.

Lemma test_parameters_keeps_variants : keeps _variants test_parameters.
Proof. unfold test_parameters. keeps_auto. Qed.

Lemma variants_keeps_config : keeps config variants.
Proof. unfold variants. keeps_auto. Qed.

Lemma variants_keeps_tests : keeps tests variants.
Proof. unfold variants. keeps_auto. Qed.

Lemma variants_keeps_test_parameters : keeps _test_parameters variants.
Proof. unfold variants. keeps_auto. Qed.

Lemma iter_tests_keeps {X} (proj : TestSuite Dumped -> X) :
  keeps proj iter_tests.
Proof. unfold iter_tests. keeps_auto. Qed.

Lemma has_both_keeps_config :
  keeps config _has_both_parameters_and_variants.
Proof.
  unfold _has_both_parameters_and_variants. monad_norm.
  apply keeps_bind; [apply test_parameters_keeps_config|intros tp].
  case_match; [apply keeps_ret|].
  apply keeps_bind; [apply variants_keeps_config|intros; apply keeps_ret].
Qed.

Lemma has_both_keeps_tests :
  keeps tests _has_both_parameters_and_variants.
Proof.
  unfold _has_both_parameters_and_variants. monad_norm.
  apply keeps_bind; [apply test_parameters_keeps_tests|intros tp].
  case_match; [apply keeps_ret|].
  apply keeps_bind; [apply variants_keeps_tests|intros; apply keeps_ret].
Qed.

Lemma check_both_keeps_config :
  keeps config _check_both_parameters_and_variants.
Proof.
  unfold _check_both_parameters_and_variants. monad_norm.
  apply keeps_bind; [apply has_both_keeps_config|intros []]; keeps_auto.
Qed.

Lemma check_both_keeps_tests :
  keeps tests _check_both_parameters_and_variants.
Proof.
  unfold _check_both_parameters_and_variants. monad_norm.
  apply keeps_bind; [apply has_both_keeps_tests|intros []]; keeps_auto.
Qed.

Lemma convert_to_dry_run_keeps_config : keeps config _convert_to_dry_run.
Proof.
  unfold _convert_to_dry_run. monad_norm.
  apply keeps_bind; [apply keeps_get|intros self].
  case_match; [|apply keeps_ret].
  apply keeps_bind; [apply iter_tests_keeps|intros l].
  apply keeps_modify. intros []; reflexivity.
Qed.

Lemma get_test_variants_keeps_config : keeps config _get_test_variants.
Proof.
  unfold _get_test_variants. monad_norm.
  apply keeps_bind; [apply test_parameters_keeps_config|intros tp].
  case_match.
  { apply keeps_bind; [apply iter_tests_keeps|intros; apply keeps_ret]. }
  apply keeps_bind; [apply variants_keeps_config|intros vs].
  case_match; [|apply keeps_ret].
  apply keeps_bind; [apply keeps_get|intros self].
  repeat case_match; try apply keeps_ret.
  - apply keeps_bind; [apply iter_tests_keeps|intros l].
    apply keeps_for_each. intros acc x.
    apply keeps_bind; [apply variants_keeps_config|intros; apply keeps_ret].
  - apply keeps_bind; [apply variants_keeps_config|intros vs'].
    apply keeps_for_each. intros acc x.
    apply keeps_bind; [apply iter_tests_keeps|intros; apply keeps_ret].
Qed.

Lemma expand_tests_keeps_config : keeps config expand_tests.
Proof.
  unfold expand_tests. monad_norm.
  apply keeps_bind; [apply test_parameters_keeps_config|intros tp].
  apply keeps_bind.
  { case_match; [apply keeps_ret|].
    apply keeps_bind; [apply variants_keeps_config|intros; apply keeps_ret]. }
  intros []; [|apply keeps_ret].
  apply keeps_bind; [apply get_test_variants_keeps_config|intros l].
  apply keeps_modify. intros []; reflexivity.
Qed.

Lemma check_tests_found_keeps {X} (proj : TestSuite Dumped -> X) cfg :
  keeps proj (check_tests_found cfg).
Proof. unfold check_tests_found. keeps_auto. Qed.

(** A suite returned by the constructor carries the layered configuration. *)
Lemma init_config name cfg ts job rs en s :
  __init__ name cfg ts job rs en = Ok s ->
  config s = update_if (update_if settings_as_dict job) cfg.
Proof.
  unfold __init__. cbv zeta. monad_norm.
  set (self := Build_TestSuite _ _ _ _ _ _ _ _ _).
  destruct (bind _ _ self) as [[u s1]|e] eqn:E; [|discriminate].
  intros [= <-].
  assert (K : keeps config
    (bind _check_both_parameters_and_variants (fun _ =>
       if truthy_opt
            (update_if (update_if settings_as_dict job) cfg
               !! "run.dry_run.enabled")
       then _convert_to_dry_run else ret tt))).
  { apply keeps_bind; [apply check_both_keeps_config|intros _].
    case_match; [apply convert_to_dry_run_keeps_config|apply keeps_ret]. }
  apply (K _ _ _ E).
Qed.

(** ** Configuration layers *)

(** The value an optional layer gives a key. *)
Definition layer_get (layer : option Config) (k : string) : option pyval :=
  match layer with
  | Some d => d !! k
  | None => None
  end.

(** The documented precedence: the suite configuration first, then the job
    configuration, then the registered defaults. *)
Definition precedence (suite_config job_config : option Config) (k : string)
    : option pyval :=
  match layer_get suite_config k with
  | Some v => Some v
  | None =>
      match layer_get job_config k with
      | Some v => Some v
      | None => settings_as_dict !! k
      end
  end.

Lemma lookup_dict_update (base new : Config) k :
  dict_update base new !! k =
  match new !! k with Some v => Some v | None => base !! k end.
Proof.
  unfold dict_update. rewrite lookup_union.
  destruct (new !! k), (base !! k); reflexivity.
Qed.

Lemma lookup_update_if (base : Config) layer k :
  update_if base layer !! k =
  match layer_get layer k with Some v => Some v | None => base !! k end.
Proof.
  unfold update_if, layer_get. destruct layer as [d|]; [|reflexivity].
  case_decide as E.
  - subst d. rewrite lookup_empty. reflexivity.
  - apply lookup_dict_update.
Qed.

(** C3: the effective configuration of a suite gives every key the value of
    the suite configuration when the key is there, else the value of the job
    configuration, else the registered default; this holds for the
    configuration [from_config] merges, for every suite the constructor
    returns and for every suite [from_config] returns. *)
Theorem config_precedence (suite_config : Config) (job_config : option Config)
    (k : string) :
  from_config_merge suite_config job_config !! k
    = precedence (Some suite_config) job_config k
  /\ (forall name tests resolutions enabled s,
        __init__ name (Some suite_config) tests job_config resolutions enabled
          = Ok s ->
        config s !! k = precedence (Some suite_config) job_config k)
  /\ (forall name s,
        from_config suite_config name job_config = Ok s ->
        config s !! k = precedence (Some suite_config) job_config k).
Proof.
  assert (Hmerge : from_config_merge suite_config job_config !! k
                   = precedence (Some suite_config) job_config k).
  { unfold from_config_merge, precedence. cbv zeta.
    rewrite lookup_dict_update, lookup_update_if. reflexivity. }
  split; [exact Hmerge|]. split.
  - intros name ts rs en s E. apply init_config in E. rewrite E.
    rewrite !lookup_update_if. reflexivity.
  - intros name s E. unfold from_config in E. cbv zeta in E.
    set (cfg := from_config_merge suite_config job_config) in *.
    destruct (_from_config_with_resolver cfg name) as [s0|e] eqn:E0;
      [|discriminate].
    monad_norm.
    destruct (bind expand_tests _ s0) as [[u s1]|e] eqn:E1; [|discriminate].
    injection E as <-.
    assert (K : keeps config
                  (bind expand_tests (fun _ => check_tests_found cfg))).
    { apply keeps_bind; [apply expand_tests_keeps_config|intros _].
      apply check_tests_found_keeps. }
    rewrite (K _ _ _ E1).
    unfold _from_config_with_resolver in E0. cbv zeta in E0.
    destruct (resolve _ _ _ _) as [rs|[]]; try discriminate.
    apply init_config in E0. rewrite E0. simpl update_if at 2.
    rewrite lookup_update_if. simpl layer_get.
    destruct (cfg !! k) as [v|] eqn:Ek; [exact Hmerge|].
    rewrite <- Hmerge. unfold precedence in Hmerge. simpl in Hmerge.
    destruct (suite_config !! k); [discriminate|].
    destruct (layer_get job_config k); [discriminate|]. congruence.
Qed.

(** ** resolutions_to_runnables *)

Lemma fold_left_snoc {A B} (f : A -> B) (l : list A) (acc : list B) :
  fold_left (fun acc x => (acc ++ [f x])%list) l acc = (acc ++ map f l)%list.
Proof.
  revert acc. induction l as [|x l IH]; intros acc; simpl.
  - symmetry. apply app_nil_r.
  - rewrite IH, <- app_assoc. reflexivity.
Qed.

(** The runnables of the successful resolutions, in resolution order and
    then in the order they have inside their resolution. *)
Definition successful_runnables (rs : list (ReferenceResolution Dumped))
    : list (Runnable Dumped) :=
  flat_map (fun r => if decide (result r = SUCCESS)
                     then rr_resolutions r else []) rs.

Lemma collect_runnables_app cfg rs out :
  collect_runnables cfg rs out
  = (out ++ map (configure cfg) (successful_runnables rs))%list.
Proof.
  revert out. induction rs as [|r rs IH]; intros out; simpl.
  - symmetry. apply app_nil_r.
  - destruct (decide (result r <> SUCCESS)) as [Hne|He].
    + rewrite IH. destruct (decide (result r = SUCCESS)); [contradiction|].
      reflexivity.
    + destruct (decide (result r = SUCCESS)) as [_|Hn].
      * rewrite IH, fold_left_snoc, map_app, app_assoc. reflexivity.
      * exfalso. apply He. exact Hn.
Qed.

(** C4: with no by-tag filter configured, [resolutions_to_runnables] returns
    the runnables of the SUCCESS resolutions, in resolution order and then
    intra-resolution order, as many as those resolutions hold, each with
    [default_config] set to [filter_runnable_config(kind, config)] and its
    other fields as they were; resolutions that are not SUCCESS add none. *)
Theorem resolutions_to_runnables_unfiltered
    (rs : list (ReferenceResolution Dumped)) (cfg : Config) :
  truthy_opt (cfg !! "filter.by_tags.tags") = false ->
  Forall2 (fun r r' =>
             default_config r' = filter_runnable_config (kind r) cfg
             /\ kind r' = kind r /\ uri r' = uri r /\ tags r' = tags r
             /\ variant r' = variant r)
    (successful_runnables rs) (resolutions_to_runnables rs cfg)
  /\ length (resolutions_to_runnables rs cfg)
     = length (successful_runnables rs)
  /\ (Forall (fun r => result r <> SUCCESS) rs ->
      resolutions_to_runnables rs cfg = []).
Proof.
  intros Hf.
  assert (E : resolutions_to_runnables rs cfg
              = map (configure cfg) (successful_runnables rs)).
  { unfold resolutions_to_runnables. cbv zeta.
    destruct (cfg !! "filter.by_tags.tags") as [t|]; simpl in Hf.
    - rewrite Hf. apply collect_runnables_app.
    - apply collect_runnables_app. }
  rewrite E. clear E. split; [|split].
  - induction (successful_runnables rs) as [|r l IH]; simpl; constructor.
    + repeat split; reflexivity.
    + exact IH.
  - apply length_map.
  - intros Hall. replace (successful_runnables rs) with (@nil (Runnable Dumped));
      [reflexivity|].
    induction Hall as [|r l Hr _ IH]; simpl; [reflexivity|].
    destruct (decide (result r = SUCCESS)); [contradiction|]. exact IH.
Qed.

(** ** Status *)

(** C9: [status] depends on the [tests] attribute alone: [None] gives
    RESOLUTION_NOT_STARTED, the empty list TESTS_NOT_FOUND, a list with at
    least one element TESTS_FOUND, and UNKNOWN is never returned. *)
Theorem status_projection (self : TestSuite Dumped) :
  (tests self = None -> status self = RESOLUTION_NOT_STARTED)
  /\ (tests self = Some [] -> status self = TESTS_NOT_FOUND)
  /\ (forall r l, tests self = Some (r :: l) -> status self = TESTS_FOUND)
  /\ status self <> UNKNOWN
  /\ (forall other : TestSuite Dumped,
        tests other = tests self -> status other = status self).
Proof.
  unfold status, size. repeat split.
  - intros ->. reflexivity.
  - intros ->. reflexivity.
  - intros r l ->. reflexivity.
  - destruct (tests self) as [[|r l]|]; simpl; discriminate.
  - intros other ->. reflexivity.
Qed.

(** ** Dry-run conversion *)

(** C8: on a suite whose test list is set, [_convert_to_dry_run] returns;
    with a runner other than "nrunner" it changes nothing; with "nrunner"
    the test list of the suite it leaves holds, for every runnable, one of
    kind "dry-run" with the other fields as they were, and the configuration
    is as before; converting twice gives what converting once gives. *)
Theorem convert_to_dry_run_idempotent (self : TestSuite Dumped)
    (l : list (Runnable Dumped)) :
  tests self = Some l ->
  (eq_str (config self !! "run.suite_runner") "nrunner" = false ->
   _convert_to_dry_run self = Ok (tt, self))
  /\ (eq_str (config self !! "run.suite_runner") "nrunner" = true ->
      exists l',
        _convert_to_dry_run self = Ok (tt, set_tests (Some l') self)
        /\ Forall2 (fun r r' =>
                      kind r' = "dry-run" /\ uri r' = uri r
                      /\ tags r' = tags r
                      /\ default_config r' = default_config r
                      /\ variant r' = variant r) l l'
        /\ exists self',
             _convert_to_dry_run self = Ok (tt, self')
             /\ tests self' = Some l'
             /\ config self' = config self)
  /\ (exists self1, _convert_to_dry_run self = Ok (tt, self1))
  /\ bind _convert_to_dry_run (fun _ => _convert_to_dry_run) self
     = _convert_to_dry_run self.
Proof.
  intros Ht.
  assert (Hrun : forall s l0, tests s = Some l0 ->
            eq_str (config s !! "run.suite_runner") "nrunner" = true ->
            _convert_to_dry_run s
            = Ok (tt, set_tests (Some (map (set_kind "dry-run") l0)) s)).
  { intros s l0 Hs Hr. unfold _convert_to_dry_run, iter_tests. monad_norm.
    unfold bind, get, modify, ret. rewrite Hr, Hs. reflexivity. }
  assert (Hskip : forall s,
            eq_str (config s !! "run.suite_runner") "nrunner" = false ->
            _convert_to_dry_run s = Ok (tt, s)).
  { intros s Hr. unfold _convert_to_dry_run. monad_norm.
    unfold bind, get, ret. rewrite Hr. reflexivity. }
  split; [apply Hskip|]. split; [|split].
  - intros Hr. exists (map (set_kind "dry-run") l).
    split; [apply Hrun; assumption|]. split.
    + clear. induction l as [|r l IH]; simpl; constructor.
      * repeat split; reflexivity.
      * exact IH.
    + exists (set_tests (Some (map (set_kind "dry-run") l)) self).
      split; [apply Hrun; assumption|]. split; reflexivity.
  - destruct (eq_str (config self !! "run.suite_runner") "nrunner") eqn:Hr.
    + eexists. apply Hrun; eassumption.
    + eexists. apply Hskip; assumption.
  - destruct (eq_str (config self !! "run.suite_runner") "nrunner") eqn:Hr.
    + unfold bind at 1. rewrite (Hrun _ _ Ht Hr).
      rewrite (Hrun _ (map (set_kind "dry-run") l)); [|reflexivity|
        destruct self; exact Hr].
      rewrite map_map. destruct self; simpl. reflexivity.
    + unfold bind at 1. rewrite (Hskip _ Hr). apply Hskip, Hr.
Qed.

(** ** Test parameters against variants *)

(** The object [__init__] has assigned before it runs its checks. *)
Definition fresh_suite (name : string) (cfg : Config)
    (tests : option (list (Runnable Dumped)))
    (resolutions : option (list (ReferenceResolution Dumped)))
    (enabled : bool) : TestSuite Dumped :=
  {| name := name; tests := tests; resolutions := resolutions;
     enabled := enabled; config := cfg; _variants := None;
     _references := None; _runner := None; _test_parameters := None |}.

(** The configuration [__init__] layers from its arguments. *)
Definition init_layers (config job_config : option Config) : Config :=
  update_if (update_if settings_as_dict job_config) config.

Lemma any_non_empty_Exists (vs : list Variant) :
  any_non_empty vs = true
  <-> Exists (fun v => is_empty_variant (v_variant v) = false) vs.
Proof.
  induction vs as [|v vs IH]; simpl.
  - split; [discriminate|]. intros H. inversion H.
  - destruct (is_empty_variant (v_variant v)) eqn:E; simpl.
    + rewrite IH. split; [intros H; right; exact H|].
      intros H. inversion H; subst; [congruence|assumption].
    + split; [intros _; left; exact E|reflexivity].
Qed.

Lemma any_non_empty_Forall (vs : list Variant) :
  any_non_empty vs = false
  <-> Forall (fun v => is_empty_variant (v_variant v) = true) vs.
Proof.
  induction vs as [|v vs IH]; simpl.
  - split; [constructor|reflexivity].
  - destruct (is_empty_variant (v_variant v)) eqn:E; simpl.
    + rewrite IH. split; [intros H; constructor; assumption|].
      intros H. inversion H; assumption.
    + split; [discriminate|]. intros H. inversion H; congruence.
Qed.

Lemma has_both_params_empty self tp s1 :
  test_parameters self = Ok (tp, s1) -> dict_truthy tp = false ->
  _has_both_parameters_and_variants self = Ok (false, s1).
Proof.
  intros Ep Ht. unfold _has_both_parameters_and_variants. monad_norm.
  unfold bind at 1. rewrite Ep, Ht. reflexivity.
Qed.

Lemma has_both_params_set self tp s1 vs s2 :
  test_parameters self = Ok (tp, s1) -> dict_truthy tp = true ->
  variants s1 = Ok (vs, s2) ->
  _has_both_parameters_and_variants self
  = Ok (any_non_empty (itertests vs), s2).
Proof.
  intros Ep Ht Ev. unfold _has_both_parameters_and_variants. monad_norm.
  unfold bind at 1. rewrite Ep, Ht. simpl. unfold bind. rewrite Ev.
  reflexivity.
Qed.

(** C1: constructing a suite whose test parameters are non-empty while the
    variant engine yields at least one variant that is not empty raises
    TestSuiteError with the documented message; when the test parameters
    are empty, or when they are set and every variant the engine yields is
    empty, the mutual-exclusion check returns without raising. *)
Theorem parameters_and_variants_exclusive :
  (forall name config tests job_config resolutions enabled tp s1 vs s2,
     let self := fresh_suite name (init_layers config job_config) tests
                   resolutions enabled in
     test_parameters self = Ok (tp, s1) -> dict_truthy tp = true ->
     variants s1 = Ok (vs, s2) ->
     Exists (fun v => is_empty_variant (v_variant v) = false) (itertests vs) ->
     __init__ name config tests job_config resolutions enabled
     = Raise (TestSuiteError err_msg))
  /\ (forall (self : TestSuite Dumped) tp s1,
        test_parameters self = Ok (tp, s1) -> dict_truthy tp = false ->
        _check_both_parameters_and_variants self = Ok (tt, s1))
  /\ (forall (self : TestSuite Dumped) tp s1 vs s2,
        test_parameters self = Ok (tp, s1) -> dict_truthy tp = true ->
        variants s1 = Ok (vs, s2) ->
        Forall (fun v => is_empty_variant (v_variant v) = true)
          (itertests vs) ->
        _check_both_parameters_and_variants self = Ok (tt, s2)).
Proof.
  split; [|split].
  - intros name cfg ts job rs en tp s1 vs s2 self Ep Ht Ev Hex.
    apply any_non_empty_Exists in Hex.
    unfold __init__. cbv zeta. fold (init_layers cfg job).
    fold (fresh_suite name (init_layers cfg job) ts rs en). fold self.
    monad_norm. unfold bind at 1.
    unfold _check_both_parameters_and_variants. monad_norm. unfold bind at 1.
    rewrite (has_both_params_set _ _ _ _ _ Ep Ht Ev), Hex. reflexivity.
  - intros self tp s1 Ep Ht.
    unfold _check_both_parameters_and_variants. monad_norm. unfold bind.
    rewrite (has_both_params_empty _ _ _ Ep Ht). reflexivity.
  - intros self tp s1 vs s2 Ep Ht Ev Hall.
    apply any_non_empty_Forall in Hall.
    unfold _check_both_parameters_and_variants. monad_norm. unfold bind.
    rewrite (has_both_params_set _ _ _ _ _ Ep Ht Ev), Hall. reflexivity.
Qed.

(** C10, as the code has it: when the mutual-exclusion check passes, the
    merged configuration enables dry-run with the runner "nrunner" and no
    test list was given, the constructor raises the TypeError of iterating
    [None] in the dry-run conversion. *)
Theorem init_dry_run_without_tests name config job_config resolutions enabled
    (s1 : TestSuite Dumped) :
  let cfg := init_layers config job_config in
  _check_both_parameters_and_variants
    (fresh_suite name cfg None resolutions enabled) = Ok (tt, s1) ->
  truthy_opt (cfg !! "run.dry_run.enabled") = true ->
  eq_str (cfg !! "run.suite_runner") "nrunner" = true ->
  __init__ name config None job_config resolutions enabled
  = Raise (TypeError "'NoneType' object is not iterable").
Proof.
  intros cfg Ec Hd Hr.
  unfold __init__. cbv zeta. fold (init_layers config job_config). fold cfg.
  fold (fresh_suite name cfg None resolutions enabled).
  monad_norm. unfold bind at 1. rewrite Ec, Hd.
  pose proof (check_both_keeps_config _ _ _ Ec) as Kc.
  pose proof (check_both_keeps_tests _ _ _ Ec) as Kt.
  simpl in Kc, Kt.
  unfold _convert_to_dry_run, iter_tests. monad_norm.
  unfold bind, get. rewrite Kc, Hr, Kt. reflexivity.
Qed.

(** ** Variant expansion *)

Lemma variants_cached (s : TestSuite Dumped) vs s' :
  variants s = Ok (vs, s') -> variants s' = Ok (vs, s').
Proof.
  unfold variants. monad_norm. unfold bind, get, modify, ret, raise.
  destruct (_variants s) as [v|] eqn:Ev.
  - intros [= -> <-]. rewrite Ev. reflexivity.
  - destruct (negb (is_parsed Varianter_new)).
    + destruct (parse Varianter_new (config s)) as [v|[]]; try discriminate.
      intros [= -> <-]. reflexivity.
    + intros [= <- <-]. reflexivity.
Qed.

(** A loop whose body returns without touching the suite is a fold. *)
Lemma for_each_pure {A B} (body : B -> A -> M Dumped B) (g : B -> A -> B)
    (s : TestSuite Dumped) l :
  (forall acc x, body acc x s = Ok (g acc x, s)) ->
  forall acc, for_each body l acc s = Ok (fold_left g l acc, s).
Proof.
  intros Hb. induction l as [|x l IH]; intros acc; simpl; [reflexivity|].
  monad_norm. unfold bind. rewrite Hb. apply IH.
Qed.

(** The copy of [runnable] that [add_variant] appends for [variant]. *)
Definition bound (runnable : Runnable Dumped) (variant : Variant)
    : Runnable Dumped :=
  set_variant (Some (dump_variant variant)) runnable.

Lemma fold_left_snoc_flat_map {A B} (f : A -> list B) (l : list A)
    (acc : list B) :
  fold_left (fun acc x => (acc ++ f x)%list) l acc
  = (acc ++ flat_map f l)%list.
Proof.
  revert acc. induction l as [|x l IH]; intros acc; simpl.
  - symmetry. apply app_nil_r.
  - rewrite IH, <- app_assoc. reflexivity.
Qed.

Lemma length_flat_map_const {A B} (f : A -> list B) (l : list A) (n : nat) :
  (forall x, length (f x) = n) -> length (flat_map f l) = (length l * n)%nat.
Proof.
  intros Hf. induction l as [|x l IH]; simpl; [reflexivity|].
  rewrite length_app, Hf, IH. reflexivity.
Qed.

Lemma map_flat_map {A B C} (f : B -> C) (g : A -> list B) (l : list A) :
  map f (flat_map g l) = flat_map (fun x => map f (g x)) l.
Proof.
  induction l as [|x l IH]; simpl; [reflexivity|].
  rewrite map_app, IH. reflexivity.
Qed.

(** C2: with empty test parameters and an engine that reports variants,
    [_get_test_variants] returns one binding per pair of a test and a
    variant, T times V in all: under "variants-per-test" the first test with
    every variant in turn, then the second test, and so on; under
    "tests-per-variant" the first variant with every test in turn, then the
    second variant, and so on.  A binding of test [r] to variant [v] is a
    runnable with the kind, uri, tags and default_config of [r] and the
    dumped [v] as its variant. *)
Theorem get_test_variants_order (self : TestSuite Dumped)
    (l : list (Runnable Dumped)) tp s1 vs s2 :
  tests self = Some l ->
  test_parameters self = Ok (tp, s1) -> dict_truthy tp = false ->
  variants s1 = Ok (vs, s2) -> varianter_truthy vs = true ->
  (eq_str (config self !! "run.execution_order") "variants-per-test" = true ->
   let out := flat_map (fun r => map (bound r) (itertests vs)) l in
   _get_test_variants self = Ok (out, s2)
   /\ length out = (length l * length (itertests vs))%nat
   /\ map (fun r' => (kind r', uri r', tags r', default_config r',
                       variant r')) out
      = flat_map (fun r =>
                    map (fun v => (kind r, uri r, tags r, default_config r,
                                   Some (dump_variant v)))
                      (itertests vs)) l)
  /\ (eq_str (config self !! "run.execution_order") "tests-per-variant" = true ->
      let out := flat_map (fun v => map (fun r => bound r v) l) (itertests vs) in
      _get_test_variants self = Ok (out, s2)
      /\ length out = (length l * length (itertests vs))%nat
      /\ map (fun r' => (kind r', uri r', tags r', default_config r',
                          variant r')) out
         = flat_map (fun v =>
                       map (fun r => (kind r, uri r, tags r, default_config r,
                                      Some (dump_variant v))) l)
             (itertests vs)).
Proof.
  intros Ht Ep Hp Ev Hv.
  assert (Kc : config s2 = config self).
  { rewrite (variants_keeps_config _ _ _ Ev).
    apply (test_parameters_keeps_config _ _ _ Ep). }
  assert (Kt : tests s2 = Some l).
  { rewrite (variants_keeps_tests _ _ _ Ev),
      (test_parameters_keeps_tests _ _ _ Ep). exact Ht. }
  pose proof (variants_cached _ _ _ Ev) as Ec.
  assert (Hit : iter_tests s2 = Ok (l, s2)).
  { unfold iter_tests. monad_norm. unfold bind, get. rewrite Kt. reflexivity. }
  split.
  - intros Ho. cbv zeta. split.
    + unfold _get_test_variants. cbv zeta. monad_norm.
      unfold bind at 1. rewrite Ep, Hp.
      unfold bind at 1. rewrite Ev, Hv.
      unfold bind at 1. unfold get at 1. rewrite Kc, Ho.
      unfold bind at 1. rewrite Hit.
      rewrite (for_each_pure _
                 (fun acc r => (acc ++ map (bound r) (itertests vs))%list)).
      * rewrite fold_left_snoc_flat_map. reflexivity.
      * intros acc r. unfold bind. rewrite Ec. unfold ret.
        unfold add_variant. cbv zeta. fold (bound r).
        rewrite (fold_left_snoc (bound r)). reflexivity.
    + split; [apply length_flat_map_const; intros r; apply length_map|].
      rewrite map_flat_map. apply flat_map_ext. intros r.
      rewrite map_map. reflexivity.
  - intros Ho. cbv zeta.
    assert (Ho' : eq_str (config self !! "run.execution_order")
                    "variants-per-test" = false).
    { unfold eq_str in *. destruct (config self !! "run.execution_order")
        as [[]|]; try discriminate.
      apply String.eqb_eq in Ho. subst. reflexivity. }
    split.
    + unfold _get_test_variants. cbv zeta. monad_norm.
      unfold bind at 1. rewrite Ep, Hp.
      unfold bind at 1. rewrite Ev, Hv.
      unfold bind at 1. unfold get at 1. rewrite Kc, Ho', Ho.
      unfold bind at 1. rewrite Ec.
      rewrite (for_each_pure _
                 (fun acc v => (acc ++ map (fun r => bound r v) l)%list)).
      * rewrite fold_left_snoc_flat_map. reflexivity.
      * intros acc v. unfold bind. rewrite Hit. unfold ret.
        unfold add_variant. cbv zeta.
        rewrite (fold_left_snoc (fun r => bound r v)). reflexivity.
    + split.
      * rewrite (length_flat_map_const _ _ (length l)).
        -- apply Nat.mul_comm.
        -- intros v. apply length_map.
      * rewrite map_flat_map. apply flat_map_ext. intros v.
        rewrite map_map. reflexivity.
Qed.

(** C6: with empty test parameters, an execution order that is neither
    "variants-per-test" nor "tests-per-variant" (an absent one included)
    makes [_get_test_variants] return the empty list, without raising. *)
Theorem get_test_variants_unknown_order (self : TestSuite Dumped) tp s1 vs s2 :
  test_parameters self = Ok (tp, s1) -> dict_truthy tp = false ->
  variants s1 = Ok (vs, s2) -> varianter_truthy vs = true ->
  eq_str (config self !! "run.execution_order") "variants-per-test" = false ->
  eq_str (config self !! "run.execution_order") "tests-per-variant" = false ->
  _get_test_variants self = Ok ([], s2).
Proof.
  intros Ep Hp Ev Hv Ho1 Ho2.
  assert (Kc : config s2 = config self).
  { rewrite (variants_keeps_config _ _ _ Ev).
    apply (test_parameters_keeps_config _ _ _ Ep). }
  unfold _get_test_variants. cbv zeta. monad_norm.
  unfold bind at 1. rewrite Ep, Hp.
  unfold bind at 1. rewrite Ev, Hv.
  unfold bind, get. rewrite Kc, Ho1, Ho2. reflexivity.
Qed.

(** The suite with another configuration mapping. *)
Definition set_config (c : Config) (s : TestSuite Dumped) : TestSuite Dumped :=
  {| name := name s; tests := tests s; resolutions := resolutions s;
     enabled := enabled s; config := c; _variants := _variants s;
     _references := _references s; _runner := _runner s;
     _test_parameters := _test_parameters s |}.

(** The suite whose configuration holds [o] under "run.execution_order"
    ([None]: the key is absent). *)
Definition with_execution_order (o : option pyval) (s : TestSuite Dumped)
    : TestSuite Dumped :=
  set_config (match o with
              | Some v => <["run.execution_order" := v]> (config s)
              | None => delete "run.execution_order" (config s)
              end) s.

Lemma test_parameters_any_order (self : TestSuite Dumped) o tp s1 :
  test_parameters self = Ok (tp, s1) ->
  test_parameters (with_execution_order o self)
  = Ok (tp, with_execution_order o s1).
Proof.
  unfold test_parameters. monad_norm. unfold bind, get, modify, ret, lift.
  simpl. destruct (_test_parameters self) as [d|].
  - intros [= -> <-]. reflexivity.
  - assert (E : (match o with
                 | Some v => <["run.execution_order" := v]> (config self)
                 | None => delete "run.execution_order" (config self)
                 end) !! "run.test_parameters"
                = config self !! "run.test_parameters").
    { destruct o; [apply lookup_insert_ne|apply lookup_delete_ne];
        discriminate. }
    rewrite E.
    destruct (py_iter _) as [items|e]; [|discriminate].
    destruct (dict_of_pairs items []) as [d|e]; [|discriminate].
    intros [= -> <-]. reflexivity.
Qed.

Lemma get_test_variants_params (self : TestSuite Dumped) l tp s1 :
  tests self = Some l ->
  test_parameters self = Ok (tp, s1) -> dict_truthy tp = true ->
  _get_test_variants self
  = Ok (map (fun r => bound r (parameters_variant tp)) l, s1).
Proof.
  intros Ht Ep Hp.
  pose proof (test_parameters_keeps_tests _ _ _ Ep) as Kt.
  unfold _get_test_variants. cbv zeta. monad_norm.
  unfold bind at 1. rewrite Ep, Hp.
  unfold bind, iter_tests. monad_norm. unfold bind, get, ret.
  rewrite Kt, Ht. unfold add_variant. cbv zeta.
  rewrite (fold_left_snoc (fun r => bound r (parameters_variant tp))).
  reflexivity.
Qed.

(** C5: with non-empty test parameters [_get_test_variants] returns one
    binding per test, in the order of the test list, all bound to one
    variant that has no id, the single path "/" and the parameter mapping
    as the value of its node: each binding has the kind, uri, tags and
    default_config of its test and that variant, dumped, as its variant;
    the result is the same whatever "run.execution_order" holds. *)
Theorem get_test_variants_parameters (self : TestSuite Dumped)
    (l : list (Runnable Dumped)) tp s1 :
  tests self = Some l ->
  test_parameters self = Ok (tp, s1) -> dict_truthy tp = true ->
  let synthetic :=
    {| v_variant := Node {| tn_name := ""; value := tp |};
       variant_id := None; paths := ["/"] |} in
  let out := map (fun r => bound r synthetic) l in
  _get_test_variants self = Ok (out, s1)
  /\ length out = length l
  /\ (forall o, _get_test_variants (with_execution_order o self)
                = Ok (out, with_execution_order o s1))
  /\ map (fun r' => (kind r', uri r', tags r', default_config r',
                      variant r')) out
     = map (fun r => (kind r, uri r, tags r, default_config r,
                      Some (dump_variant synthetic))) l.
Proof.
  intros Ht Ep Hp synthetic out. split; [|split; [|split]].
  - apply get_test_variants_params; assumption.
  - apply length_map.
  - intros o. apply get_test_variants_params; [exact Ht| |exact Hp].
    apply test_parameters_any_order, Ep.
  - unfold out. rewrite map_map. reflexivity.
Qed.

(** ** The factory *)

(** C7: when [from_config] has built its suite and the test list is empty:
    without "run.ignore_missing_references" it raises TestSuiteError with
    the no-tests message; with it, it returns that suite, of size 0. *)
Theorem from_config_empty_suite (config : Config) (name : option string)
    (job_config : option Config) (suite0 suite : TestSuite Dumped) :
  let cfg := from_config_merge config job_config in
  _from_config_with_resolver cfg name = Ok suite0 ->
  expand_tests suite0 = Ok (tt, suite) ->
  tests_truthy suite = false ->
  (truthy_opt (cfg !! "run.ignore_missing_references") = false ->
   from_config config name job_config = Raise (TestSuiteError no_tests_msg))
  /\ (truthy_opt (cfg !! "run.ignore_missing_references") = true ->
      from_config config name job_config = Ok suite /\ size suite = 0).
Proof.
  intros cfg E0 E1 Hempty. split; intros Hi.
  - unfold from_config. cbv zeta. fold cfg. rewrite E0.
    monad_norm. unfold bind at 1. rewrite E1.
    unfold check_tests_found. rewrite Hi. simpl. monad_norm.
    unfold bind, get. rewrite Hempty. reflexivity.
  - split.
    + unfold from_config. cbv zeta. fold cfg. rewrite E0.
      monad_norm. unfold bind at 1. rewrite E1.
      unfold check_tests_found. rewrite Hi. reflexivity.
    + unfold tests_truthy in Hempty. unfold size.
      destruct (tests suite) as [[|r l]|]; try reflexivity. discriminate.
Qed.

End Properties.

(** * Statistics *)

Section Statistics.

Context {Dumped : Type} `{!Collaborators Dumped}.

(** [str.lower]: kept abstract, the counters only use that names with the
    same lowered form share one key. *)
Variable lower : string -> string.

(** [_increment_dict_key_counter]: the [KeyError] branch starts the
    counter at 1. *)
Definition _increment_dict_key_counter (dict_object : gmap string Z)
    (key : string) : gmap string Z :=
  match dict_object !! lower key with
  | Some n => <[lower key := n + 1]> dict_object
  | None => <[lower key := 1]> dict_object
  end.

(** On a test list of runnables; a [None] entry, for which [test.kind]
    raises AttributeError, is not represented. *)
Definition _get_stats_from_nrunner (self : TestSuite Dumped)
    : Res (gmap string Z) :=
  match tests self with
  | None => Raise (TypeError "'NoneType' object is not iterable")
  | Some l =>
      Ok (fold_left (fun stats test =>
                       _increment_dict_key_counter stats (kind test)) l ∅)
  end.

(** [for tag in runnable.tags or {}]: the tag names of a runnable. *)
Definition tag_names (runnable : Runnable Dumped) : list string :=
  match tags runnable with
  | Some t => (map_to_list t).*1
  | None => []
  end.

(** On a test list of runnables: the guard [if runnable is None: continue]
    has nothing to skip. *)
Definition _get_tags_stats_from_nrunner (self : TestSuite Dumped)
    : Res (gmap string Z) :=
  match tests self with
  | None => Raise (TypeError "'NoneType' object is not iterable")
  | Some l =>
      Ok (fold_left (fun stats runnable =>
                       fold_left _increment_dict_key_counter
                         (tag_names runnable) stats) l ∅)
  end.

(** The property [stats]. *)
Definition stats (self : TestSuite Dumped) : Res (gmap string Z) :=
  let runner_name := config self !! "run.suite_runner" in
  if eq_str runner_name "nrunner" then _get_stats_from_nrunner self
  else Ok ∅.

(** The property [tags_stats]. *)
Definition tags_stats (self : TestSuite Dumped) : Res (gmap string Z) :=
  let runner_name := config self !! "run.suite_runner" in
  if eq_str runner_name "nrunner" then _get_tags_stats_from_nrunner self
  else Ok ∅.

(** [__len__] *)
Definition __len__ (self : TestSuite Dumped) : Z := size self.

(** How many of [keys] fall on the counter [k]. *)
Definition occurrences (k : string) (keys : list string) : nat :=
  length (filter (fun key => lower key = k) keys).

(** A counter that is absent stands for no occurrence. *)
Definition counter (n : nat) : option Z :=
  match n with
  | O => None
  | S _ => Some (Z.of_nat n)
  end.

Lemma increment_lookup (d : gmap string Z) key k :
  _increment_dict_key_counter d key !! k
  = if decide (lower key = k)
    then Some (default 0 (d !! k) + 1)
    else d !! k.
Proof.
  unfold _increment_dict_key_counter.
  destruct (d !! lower key) as [n|] eqn:E; case_decide as Hk.
  - subst k. rewrite lookup_insert_eq, E. reflexivity.
  - rewrite lookup_insert_ne by assumption. reflexivity.
  - subst k. rewrite lookup_insert_eq, E. reflexivity.
  - rewrite lookup_insert_ne by assumption. reflexivity.
Qed.

(** Counting a list of keys into [d], where every counter of [d] holds the
    number of occurrences seen so far. *)
Lemma fold_increment_lookup (keys seen : list string) (d : gmap string Z) k :
  d !! k = counter (occurrences k seen) ->
  fold_left _increment_dict_key_counter keys d !! k
  = counter (occurrences k (seen ++ keys)).
Proof.
  revert seen d. induction keys as [|key keys IH]; intros seen d Hd; simpl.
  - rewrite app_nil_r. exact Hd.
  - replace (seen ++ key :: keys)%list with ((seen ++ [key]) ++ keys)%list
      by (rewrite <- app_assoc; reflexivity).
    apply IH. rewrite increment_lookup. unfold occurrences in *.
    rewrite filter_app, length_app, Hd.
    rewrite filter_cons, filter_nil.
    case_decide as Hk; simpl.
    + rewrite Nat.add_1_r. simpl counter.
      destruct (length (filter _ seen)) as [|n]; simpl; f_equal; lia.
    + rewrite Nat.add_0_r. reflexivity.
Qed.

Lemma fold_tags_flat (l : list (Runnable Dumped)) (d : gmap string Z) :
  fold_left (fun stats runnable =>
               fold_left _increment_dict_key_counter (tag_names runnable)
                 stats) l d
  = fold_left _increment_dict_key_counter (flat_map tag_names l) d.
Proof.
  revert d. induction l as [|r l IH]; intros d; simpl; [reflexivity|].
  rewrite fold_left_app. apply IH.
Qed.

Lemma fold_kinds_map (l : list (Runnable Dumped)) (d : gmap string Z) :
  fold_left (fun stats test => _increment_dict_key_counter stats (kind test))
    l d
  = fold_left _increment_dict_key_counter (map kind l) d.
Proof.
  revert d. induction l as [|r l IH]; intros d; simpl; [reflexivity|].
  apply IH.
Qed.

(** With the runner "nrunner", [stats] holds under each lowered kind the
    number of tests whose kind lowers to it, and no key for a kind no test
    has. *)
Theorem stats_counts_kinds (self : TestSuite Dumped)
    (l : list (Runnable Dumped)) :
  eq_str (config self !! "run.suite_runner") "nrunner" = true ->
  tests self = Some l ->
  exists m, stats self = Ok m
    /\ forall k, m !! k = counter (occurrences k (map kind l)).
Proof.
  intros Hr Ht. unfold stats. cbv zeta. rewrite Hr.
  unfold _get_stats_from_nrunner. rewrite Ht.
  eexists. split; [reflexivity|]. intros k.
  rewrite fold_kinds_map.
  apply (fold_increment_lookup (map kind l) [] ∅ k).
  rewrite lookup_empty. reflexivity.
Qed.

(** With the runner "nrunner", [tags_stats] holds under each lowered tag
    name the number of (runnable, tag name) pairs whose name lowers to it:
    a runnable counts once per tag name, whatever values the tag has, and
    a runnable without tags counts nowhere. *)
Theorem tags_stats_counts_names (self : TestSuite Dumped)
    (l : list (Runnable Dumped)) :
  eq_str (config self !! "run.suite_runner") "nrunner" = true ->
  tests self = Some l ->
  exists m, tags_stats self = Ok m
    /\ forall k, m !! k = counter (occurrences k (flat_map tag_names l)).
Proof.
  intros Hr Ht. unfold tags_stats. cbv zeta. rewrite Hr.
  unfold _get_tags_stats_from_nrunner. rewrite Ht.
  eexists. split; [reflexivity|]. intros k.
  rewrite fold_tags_flat.
  apply (fold_increment_lookup (flat_map tag_names l) [] ∅ k).
  rewrite lookup_empty. reflexivity.
Qed.

(** Without the runner "nrunner" both statistics are the empty mapping,
    also when no test list is set; with it and no test list set, both
    raise the TypeError of iterating [None]. *)
Theorem stats_runner_guard (self : TestSuite Dumped) :
  (eq_str (config self !! "run.suite_runner") "nrunner" = false ->
   stats self = Ok ∅ /\ tags_stats self = Ok ∅)
  /\ (eq_str (config self !! "run.suite_runner") "nrunner" = true ->
      tests self = None ->
      stats self = Raise (TypeError "'NoneType' object is not iterable")
      /\ tags_stats self
         = Raise (TypeError "'NoneType' object is not iterable")).
Proof.
  unfold stats, tags_stats, _get_stats_from_nrunner,
    _get_tags_stats_from_nrunner. cbv zeta.
  destruct (eq_str (config self !! "run.suite_runner") "nrunner");
    destruct (tests self) as [l|]; repeat split;
    try discriminate; reflexivity.
Qed.

(** The sum of all counters of a statistics mapping. *)
Definition total (m : gmap string Z) : Z :=
  map_fold (fun _ n acc => n + acc) 0 m.

Lemma total_insert (m : gmap string Z) k n :
  m !! k = None -> total (<[k := n]> m) = n + total m.
Proof.
  intros Hk. unfold total. apply (map_fold_insert_L (fun _ n acc => n + acc));
    [|exact Hk].
  intros; lia.
Qed.

Lemma total_increment (d : gmap string Z) key :
  total (_increment_dict_key_counter d key) = total d + 1.
Proof.
  unfold _increment_dict_key_counter.
  destruct (d !! lower key) as [n|] eqn:E.
  - rewrite <- (insert_delete_eq d (lower key) (n + 1)).
    rewrite total_insert by apply lookup_delete_eq.
    rewrite <- (insert_delete_id d (lower key) n E) at 2.
    rewrite total_insert by apply lookup_delete_eq. lia.
  - rewrite total_insert by exact E. lia.
Qed.

Lemma total_fold_increment (keys : list string) (d : gmap string Z) :
  total (fold_left _increment_dict_key_counter keys d)
  = total d + Z.of_nat (length keys).
Proof.
  revert d. induction keys as [|key keys IH]; intros d; simpl length.
  - simpl. lia.
  - simpl fold_left. rewrite IH, total_increment. lia.
Qed.

(** Every test is counted once: the counters of [stats] add up to the size
    of the suite. *)
Theorem stats_total_is_size (self : TestSuite Dumped) (m : gmap string Z) :
  eq_str (config self !! "run.suite_runner") "nrunner" = true ->
  stats self = Ok m -> total m = __len__ self.
Proof.
  intros Hr. unfold stats, _get_stats_from_nrunner, __len__, size. cbv zeta.
  rewrite Hr. destruct (tests self) as [l|]; [|discriminate].
  intros [= <-]. rewrite fold_kinds_map, total_fold_increment.
  rewrite length_map. unfold total. rewrite map_fold_empty. lia.
Qed.

(** The statistics do not depend on the order of the tests. *)
Theorem stats_order_independent (self other : TestSuite Dumped)
    (l l' : list (Runnable Dumped)) :
  config other = config self ->
  tests self = Some l -> tests other = Some l' -> l ≡ₚ l' ->
  stats other = stats self /\ tags_stats other = tags_stats self.
Proof.
  intros Hc Ht Ht' Hp.
  destruct (eq_str (config self !! "run.suite_runner") "nrunner") eqn:Hr.
  - assert (Hr' : eq_str (config other !! "run.suite_runner") "nrunner"
                  = true) by (rewrite Hc; exact Hr).
    split.
    + unfold stats, _get_stats_from_nrunner. cbv zeta.
      rewrite Hr, Hr', Ht, Ht'. f_equal. apply map_eq. intros k.
      rewrite !fold_kinds_map.
      rewrite (fold_increment_lookup (map kind l') [] ∅ k)
        by (rewrite lookup_empty; reflexivity).
      rewrite (fold_increment_lookup (map kind l) [] ∅ k)
        by (rewrite lookup_empty; reflexivity).
      unfold occurrences. simpl. rewrite Hp. reflexivity.
    + unfold tags_stats, _get_tags_stats_from_nrunner. cbv zeta.
      rewrite Hr, Hr', Ht, Ht'. f_equal. apply map_eq. intros k.
      rewrite !fold_tags_flat.
      rewrite (fold_increment_lookup (flat_map tag_names l') [] ∅ k)
        by (rewrite lookup_empty; reflexivity).
      rewrite (fold_increment_lookup (flat_map tag_names l) [] ∅ k)
        by (rewrite lookup_empty; reflexivity).
      unfold occurrences. simpl.
      assert (Hf : flat_map tag_names l ≡ₚ flat_map tag_names l').
      { clear -Hp. induction Hp; simpl.
        - reflexivity.
        - rewrite IHHp. reflexivity.
        - rewrite !app_assoc. apply Permutation_app_tail, Permutation_app_comm.
        - etransitivity; eassumption. }
      rewrite Hf. reflexivity.
  - unfold stats, tags_stats. cbv zeta. rewrite Hc, Hr. split; reflexivity.
Qed.

End Statistics.

(** * The runner *)

Section Dispatch.

Context {Dumped : Type} `{!Collaborators Dumped}.

#[local] Existing Instance M_ret.
#[local] Existing Instance M_bind.

Ltac monad_norm := unfold mbind, mret, M_bind, M_ret in *.

(** The job a suite is run for, and what a runner returns. *)
Variables Job Results : Type.

(** [SuiteRunnerDispatcher()[runner_name].obj]; [None] stands for the
    [KeyError] of a name no extension has. *)
Variable dispatcher : option pyval -> option Runner.

(** [runner.run_suite(job, suite)]: free to change the suite or raise. *)
Variable run_suite : Runner -> Job -> M Dumped Results.

Definition set_runner (r : option Runner) (s : TestSuite Dumped)
    : TestSuite Dumped :=
  {| name := name s; tests := tests s; resolutions := resolutions s;
     enabled := enabled s; config := config s; _variants := _variants s;
     _references := _references s; _runner := r;
     _test_parameters := _test_parameters s |}.

(** The property [runner], cached in [_runner]. *)
Definition runner : M Dumped Runner :=
  self ← get;
  match _runner self with
  | Some r => ret r
  | None =>
      let runner_name := config self !! "run.suite_runner" in
      match dispatcher runner_name with
      | Some obj => modify (set_runner (Some obj));; ret obj
      | None => raise (TestSuiteError "Runner not implemented.")
      end
  end.

Definition run (job : Job) : M Dumped Results :=
  r ← runner;
  run_suite r job.

(** [run] on a suite whose runner name no extension carries raises
    TestSuiteError "Runner not implemented." before any runner is called.
    When the dispatcher has an extension, the first access to [runner]
    returns its object and leaves a suite that holds it in [_runner] and is
    otherwise as before; [run] is the [run_suite] of that object on that
    suite; and from then on [runner] returns the same object whatever the
    configuration has become.  A runner already held is used as it is. *)
Theorem run_dispatches (self : TestSuite Dumped) (job : Job) :
  (_runner self = None ->
   dispatcher (config self !! "run.suite_runner") = None ->
   runner self = Raise (TestSuiteError "Runner not implemented.")
   /\ run job self = Raise (TestSuiteError "Runner not implemented."))
  /\ (forall obj, _runner self = None ->
        dispatcher (config self !! "run.suite_runner") = Some obj ->
        exists self',
          runner self = Ok (obj, self')
          /\ _runner self' = Some obj
          /\ name self' = name self /\ tests self' = tests self
          /\ resolutions self' = resolutions self
          /\ enabled self' = enabled self /\ config self' = config self
          /\ _variants self' = _variants self
          /\ _references self' = _references self
          /\ _test_parameters self' = _test_parameters self
          /\ run job self = run_suite obj job self'
          /\ (forall cfg, runner (set_config cfg self')
                          = Ok (obj, set_config cfg self')))
  /\ (forall r, _runner self = Some r ->
        runner self = Ok (r, self) /\ run job self = run_suite r job self).
Proof.
  unfold run, runner. cbv zeta. monad_norm.
  unfold bind, get, modify, ret, raise. split; [|split].
  - intros -> ->. split; reflexivity.
  - intros obj -> ->. exists (set_runner (Some obj) self).
    repeat split.
  - intros r ->. split; reflexivity.
Qed.

End Dispatch.

(** * Construction, caching and the factory *)

Section Lifecycle.

Context {Dumped : Type} `{!Collaborators Dumped}.

Ltac monad_norm := unfold mbind, mret, M_bind, M_ret in *.

(** An attribute that none of the setters used by a method writes. *)
Lemma test_parameters_keeps {X} (proj : TestSuite Dumped -> X) :
  (forall p s, proj (set_test_parameters p s) = proj s) ->
  keeps proj test_parameters.
Proof.
  intros Hp. unfold test_parameters. monad_norm.
  apply keeps_bind; [apply keeps_get|intros self].
  destruct (_test_parameters self); [apply keeps_ret|].
  apply keeps_bind; [apply keeps_lift|intros items].
  apply keeps_bind; [apply keeps_lift|intros d].
  apply keeps_bind; [apply keeps_modify, Hp|intros _; apply keeps_ret].
Qed.

Lemma variants_keeps {X} (proj : TestSuite Dumped -> X) :
  (forall v s, proj (set_variants v s) = proj s) ->
  keeps proj variants.
Proof.
  intros Hv. unfold variants. monad_norm.
  apply keeps_bind; [apply keeps_get|intros self].
  destruct (_variants self); [apply keeps_ret|].
  apply keeps_bind.
  - destruct (negb _); [|apply keeps_ret].
    destruct (parse _ _) as [v|[]]; try apply keeps_raise. apply keeps_ret.
  - intros v. apply keeps_bind; [apply keeps_modify, Hv|intros _].
    apply keeps_ret.
Qed.

Lemma check_both_keeps {X} (proj : TestSuite Dumped -> X) :
  (forall p s, proj (set_test_parameters p s) = proj s) ->
  (forall v s, proj (set_variants v s) = proj s) ->
  keeps proj _check_both_parameters_and_variants.
Proof.
  intros Hp Hv.
  unfold _check_both_parameters_and_variants,
    _has_both_parameters_and_variants. monad_norm.
  apply keeps_bind.
  - apply keeps_bind; [apply test_parameters_keeps, Hp|intros tp].
    destruct (negb _); [apply keeps_ret|].
    apply keeps_bind; [apply variants_keeps, Hv|intros; apply keeps_ret].
  - intros []; [apply keeps_raise|apply keeps_ret].
Qed.

Lemma convert_to_dry_run_keeps {X} (proj : TestSuite Dumped -> X) :
  (forall t s, proj (set_tests t s) = proj s) ->
  keeps proj _convert_to_dry_run.
Proof.
  intros Ht. unfold _convert_to_dry_run. monad_norm.
  apply keeps_bind; [apply keeps_get|intros self].
  destruct (eq_str _ _); [|apply keeps_ret].
  apply keeps_bind; [apply iter_tests_keeps|intros l].
  apply keeps_modify, Ht.
Qed.

(** The steps [__init__] runs on the fresh object. *)
Definition init_steps (cfg : Config) : M Dumped unit :=
  bind _check_both_parameters_and_variants (fun _ =>
    if truthy_opt (cfg !! "run.dry_run.enabled")
    then _convert_to_dry_run else ret tt).

Lemma init_unfold name config ts job rs en :
  __init__ name config ts job rs en
  = match init_steps (init_layers config job)
            (fresh_suite name (init_layers config job) ts rs en) with
    | Ok (_, self') => Ok self'
    | Raise e => Raise e
    end.
Proof. reflexivity. Qed.

Lemma init_steps_keeps {X} (proj : TestSuite Dumped -> X) cfg :
  (forall p s, proj (set_test_parameters p s) = proj s) ->
  (forall v s, proj (set_variants v s) = proj s) ->
  (forall t s, proj (set_tests t s) = proj s) ->
  keeps proj (init_steps cfg).
Proof.
  intros Hp Hv Ht. unfold init_steps.
  apply keeps_bind; [apply check_both_keeps; assumption|intros _].
  destruct (truthy_opt _);
    [apply convert_to_dry_run_keeps, Ht|apply keeps_ret].
Qed.

(** A suite the constructor returns has the name and the enabled flag it
    was given, no runner and no references looked up yet, and as many tests
    as were handed in; unless dry-run is enabled the test list is the one
    handed in. *)
Theorem init_keeps_arguments nm cfg ts job rs en (s : TestSuite Dumped) :
  __init__ nm cfg ts job rs en = Ok s ->
  name s = nm /\ enabled s = en
  /\ _runner s = None /\ _references s = None
  /\ size s = match ts with Some l => Z.of_nat (length l) | None => 0 end
  /\ (truthy_opt (init_layers cfg job !! "run.dry_run.enabled") = false ->
      tests s = ts).
Proof.
  rewrite init_unfold.
  destruct (init_steps _ _) as [[u s1]|e] eqn:E; [|discriminate].
  intros [= ->].
  repeat split.
  - apply (init_steps_keeps name _ (fun _ _ => eq_refl)
             (fun _ _ => eq_refl) (fun _ _ => eq_refl) _ _ _ E).
  - apply (init_steps_keeps enabled _ (fun _ _ => eq_refl)
             (fun _ _ => eq_refl) (fun _ _ => eq_refl) _ _ _ E).
  - apply (init_steps_keeps _runner _ (fun _ _ => eq_refl)
             (fun _ _ => eq_refl) (fun _ _ => eq_refl) _ _ _ E).
  - apply (init_steps_keeps _references _ (fun _ _ => eq_refl)
             (fun _ _ => eq_refl) (fun _ _ => eq_refl) _ _ _ E).
  - unfold init_steps, bind in E.
    destruct (_check_both_parameters_and_variants _) as [[[] s0]|e] eqn:E0;
      [|discriminate].
    pose proof (check_both_keeps_tests _ _ _ E0) as K0. simpl in K0.
    destruct (truthy_opt _).
    + unfold _convert_to_dry_run, iter_tests in E. monad_norm.
      unfold bind, get, modify, ret, raise in E.
      destruct (eq_str _ _).
      * rewrite K0 in E. destruct ts as [l|]; [|discriminate].
        injection E as _ <-. unfold size, set_tests. cbn [tests].
        rewrite length_map. reflexivity.
      * injection E as _ <-. unfold size. rewrite K0. reflexivity.
    + unfold ret in E. injection E as _ <-. unfold size. rewrite K0.
      reflexivity.
  - intros Hd. unfold init_steps, bind in E. rewrite Hd in E.
    destruct (_check_both_parameters_and_variants _) as [[[] s0]|e] eqn:E0;
      [|discriminate].
    unfold ret in E. injection E as _ <-.
    apply (check_both_keeps_tests _ _ _ E0).
Qed.

(** A suite constructed with dry-run enabled and the runner "nrunner" had
    a test list handed in, and holds it with every kind rewritten to
    "dry-run" and the other fields of each runnable as they were. *)
Theorem init_dry_run_kinds name config ts job rs en (s : TestSuite Dumped) :
  __init__ name config ts job rs en = Ok s ->
  truthy_opt (init_layers config job !! "run.dry_run.enabled") = true ->
  eq_str (init_layers config job !! "run.suite_runner") "nrunner" = true ->
  exists l l',
    ts = Some l /\ tests s = Some l'
    /\ Forall (fun r' => kind r' = "dry-run") l'
    /\ Forall2 (fun r r' => uri r' = uri r /\ tags r' = tags r
                            /\ default_config r' = default_config r
                            /\ variant r' = variant r) l l'.
Proof.
  rewrite init_unfold. intros E Hd Hr.
  destruct (init_steps _ _) as [[u s1]|e] eqn:E1; [|discriminate].
  injection E as ->.
  unfold init_steps, bind in E1. rewrite Hd in E1.
  destruct (_check_both_parameters_and_variants _) as [[[] s0]|e] eqn:E0;
    [|discriminate].
  pose proof (check_both_keeps_tests _ _ _ E0) as Kt.
  pose proof (check_both_keeps_config _ _ _ E0) as Kc.
  simpl in Kt, Kc.
  unfold _convert_to_dry_run, iter_tests in E1. monad_norm.
  unfold bind, get, modify, ret, raise in E1.
  rewrite Kc, Hr, Kt in E1.
  destruct ts as [l|]; [|discriminate].
  injection E1 as _ <-.
  exists l, (map (set_kind "dry-run") l). repeat split.
  - clear. induction l as [|r l IH]; simpl; constructor;
      [reflexivity|exact IH].
  - clear. induction l as [|r l IH]; simpl; constructor;
      [repeat split; reflexivity|exact IH].
Qed.

(** Without test parameters the constructor does not consult the variant
    engine: it returns, with no variants parsed, unless dry-run has to
    convert an unset test list. *)
Theorem init_without_parameters name config ts job rs en :
  let cfg := init_layers config job in
  py_iter (default (PList []) (cfg !! "run.test_parameters")) = Ok [] ->
  truthy_opt (cfg !! "run.dry_run.enabled") = false
  \/ eq_str (cfg !! "run.suite_runner") "nrunner" = false
  \/ ts <> None ->
  exists s : TestSuite Dumped,
    __init__ name config ts job rs en = Ok s
    /\ _variants s = None /\ _test_parameters s = Some [].
Proof.
  intros cfg Hp Hsafe. rewrite init_unfold. fold cfg.
  assert (E0 : _check_both_parameters_and_variants
                 (fresh_suite name cfg ts rs en)
               = Ok (tt, set_test_parameters (Some [])
                           (fresh_suite name cfg ts rs en))).
  { unfold _check_both_parameters_and_variants,
      _has_both_parameters_and_variants, test_parameters. monad_norm.
    unfold bind, get, lift, modify, ret. simpl. rewrite Hp. reflexivity. }
  unfold init_steps, bind. rewrite E0.
  destruct (truthy_opt (cfg !! "run.dry_run.enabled")) eqn:Hd.
  - unfold _convert_to_dry_run, iter_tests. monad_norm.
    unfold bind, get, modify, ret, raise. simpl.
    destruct (eq_str (cfg !! "run.suite_runner") "nrunner") eqn:Hr.
    + destruct ts as [l|].
      * eexists. repeat split.
      * destruct Hsafe as [H|[H|H]]; try discriminate. contradiction.
    + eexists. repeat split.
  - eexists. repeat split.
Qed.

(** A variant definition the engine cannot parse (IOError or ValueError)
    surfaces as OptionValidationError with the engine's detail: from the
    [variants] property, from the mutual-exclusion check of a suite whose
    test parameters are non-empty, and so from the constructor, whose
    check has to look at the variants then. *)
Theorem variants_parse_failure (self : TestSuite Dumped) details :
  _variants self = None -> is_parsed Varianter_new = false ->
  parse Varianter_new (config self) = Raise (IOError details)
  \/ parse Varianter_new (config self) = Raise (ValueError details) ->
  variants self
  = Raise (OptionValidationError ("Unable to parse variant: " ++ details))
  /\ (forall tp s1,
        test_parameters self = Ok (tp, s1) -> dict_truthy tp = true ->
        _check_both_parameters_and_variants self
        = Raise (OptionValidationError
                   ("Unable to parse variant: " ++ details)))
  /\ (forall nm cfg ts job rs en tp s1,
        self = fresh_suite nm (init_layers cfg job) ts rs en ->
        test_parameters self = Ok (tp, s1) -> dict_truthy tp = true ->
        __init__ nm cfg ts job rs en
        = Raise (OptionValidationError
                   ("Unable to parse variant: " ++ details))).
Proof.
  intros Hv Hp Hfail.
  assert (E : forall s, _variants s = None -> config s = config self ->
              variants s
              = Raise (OptionValidationError
                         ("Unable to parse variant: " ++ details))).
  { intros s Hs Hc. unfold variants. cbv zeta. monad_norm.
    unfold bind, get, raise. rewrite Hs, Hp, Hc. simpl.
    destruct Hfail as [-> | ->]; reflexivity. }
  assert (C : forall tp s1,
            test_parameters self = Ok (tp, s1) -> dict_truthy tp = true ->
            _check_both_parameters_and_variants self
            = Raise (OptionValidationError
                       ("Unable to parse variant: " ++ details))).
  { intros tp s1 Ep Ht.
    pose proof (test_parameters_keeps_variants _ _ _ Ep) as Kv.
    pose proof (test_parameters_keeps_config _ _ _ Ep) as Kc.
    unfold _check_both_parameters_and_variants,
      _has_both_parameters_and_variants. monad_norm.
    unfold bind at 1. unfold bind at 1. rewrite Ep, Ht. simpl.
    unfold bind. rewrite (E s1); [reflexivity|congruence|exact Kc]. }
  split; [apply E; [exact Hv|reflexivity]|]. split; [exact C|].
  intros nm cfg ts job rs en tp s1 Hself Ep Ht.
  rewrite init_unfold, <- Hself. unfold init_steps, bind.
  rewrite (C tp s1 Ep Ht). reflexivity.
Qed.

(** The lazily computed properties are computed once: after a first
    access, [test_parameters] and [variants] return what they returned,
    whatever the configuration has become. *)
Theorem lazy_properties_computed_once (self s1 : TestSuite Dumped) :
  (forall tp, test_parameters self = Ok (tp, s1) ->
     forall cfg, test_parameters (set_config cfg s1)
                 = Ok (tp, set_config cfg s1))
  /\ (forall vs, variants self = Ok (vs, s1) ->
        forall cfg, variants (set_config cfg s1) = Ok (vs, set_config cfg s1)).
Proof.
  split.
  - intros tp E cfg. revert E. unfold test_parameters. monad_norm.
    unfold bind, get, lift, modify, ret. simpl.
    destruct (_test_parameters self) as [d|] eqn:Ed.
    + intros [= -> <-]. rewrite Ed. reflexivity.
    + destruct (py_iter _) as [items|e]; [|discriminate].
      destruct (dict_of_pairs items []) as [d|e]; [|discriminate].
      intros [= -> <-]. reflexivity.
  - intros vs E cfg. revert E. unfold variants. monad_norm.
    unfold bind, get, modify, ret, raise. simpl.
    destruct (_variants self) as [v|] eqn:Ev.
    + intros [= -> <-]. rewrite Ev. reflexivity.
    + destruct (negb (is_parsed Varianter_new)).
      * destruct (parse Varianter_new (config self)) as [v|[]];
          try discriminate.
        intros [= -> <-]. reflexivity.
      * intros [= <- <-]. reflexivity.
Qed.

(** A (name, value) pair as "run.test_parameters" lists it, and the
    dictionary entry it becomes. *)
Definition pair_item (p : string * pyval) : pyval :=
  PTuple [PStr (fst p); snd p].

Definition entry (p : string * pyval) : pyval * pyval := (PStr (fst p), snd p).

Lemma dict_setitem_fresh (n : string) v (seen : list (string * pyval)) :
  ~ In n (map fst seen) ->
  dict_setitem (PStr n) v (map entry seen)
  = (map entry seen ++ [(PStr n, v)])%list.
Proof.
  induction seen as [|[n' v'] seen IH]; intros Hn; simpl; [reflexivity|].
  destruct (String.eqb n' n) eqn:E.
  - apply String.eqb_eq in E. exfalso. apply Hn. left. exact E.
  - f_equal. apply IH. intros H. apply Hn. right. exact H.
Qed.

Lemma dict_of_pairs_distinct (items seen : list (string * pyval)) :
  List.NoDup (map fst (seen ++ items)) ->
  dict_of_pairs (map pair_item items) (map entry seen)
  = Ok (map entry (seen ++ items)).
Proof.
  revert seen. induction items as [|[n v] items IH]; intros seen Hnd; simpl.
  - rewrite app_nil_r. reflexivity.
  - rewrite dict_setitem_fresh.
    + change (map entry seen ++ [(PStr n, v)])%list
        with (map entry seen ++ map entry [(n, v)])%list.
      rewrite <- map_app.
      replace (seen ++ (n, v) :: items)%list
        with ((seen ++ [(n, v)]) ++ items)%list
        by (rewrite <- app_assoc; reflexivity).
      apply IH. rewrite <- app_assoc. exact Hnd.
    + rewrite map_app in Hnd. simpl in Hnd.
      apply List.NoDup_remove_2 in Hnd. intros H. apply Hnd.
      apply in_or_app. left. exact H.
Qed.

(** The first access to [test_parameters] reads "run.test_parameters":
    an absent key gives the empty mapping; a list of (name, value) pairs
    with distinct names gives those entries in their order; a stored
    [None] raises the TypeError of iterating it. *)
Theorem test_parameters_reads_pairs (self : TestSuite Dumped) :
  _test_parameters self = None ->
  (config self !! "run.test_parameters" = None ->
   test_parameters self = Ok ([], set_test_parameters (Some []) self))
  /\ (forall items : list (string * pyval),
        config self !! "run.test_parameters"
        = Some (PList (map pair_item items)) ->
        List.NoDup (map fst items) ->
        test_parameters self
        = Ok (map entry items,
              set_test_parameters (Some (map entry items)) self))
  /\ (config self !! "run.test_parameters" = Some PNone ->
      test_parameters self
      = Raise (TypeError "'NoneType' object is not iterable")).
Proof.
  intros Hc. unfold test_parameters. monad_norm.
  unfold bind, get, lift, modify, ret. rewrite Hc. repeat split.
  - intros ->. reflexivity.
  - intros items -> Hnd.
    pose proof (dict_of_pairs_distinct items [] Hnd) as E.
    simpl in E. simpl default. simpl py_iter. cbv iota beta.
    rewrite E. reflexivity.
  - intros ->. reflexivity.
Qed.

(** [size] against [status]: the size is never negative, it is positive
    exactly when tests were found, and it is 0 both before resolution and
    when resolution found nothing. *)
Theorem size_status (self : TestSuite Dumped) :
  0 <= size self
  /\ (0 < size self <-> status self = TESTS_FOUND)
  /\ (size self = 0 <->
      status self = RESOLUTION_NOT_STARTED \/ status self = TESTS_NOT_FOUND).
Proof.
  unfold status, size.
  destruct (tests self) as [[|r l]|]; cbn [length].
  - change (Z.of_nat 0) with 0. simpl.
    intuition (try lia; try discriminate; try reflexivity).
  - assert (P : 0 < Z.of_nat (S (length l))) by lia.
    destruct (Z.of_nat (S (length l)) =? 0) eqn:E0;
      [apply Z.eqb_eq in E0; lia|].
    destruct (Z.of_nat (S (length l)) >? 0) eqn:E1;
      [|rewrite Z.gtb_ltb in E1; apply Z.ltb_ge in E1; lia].
    intuition (try lia; try discriminate; try reflexivity).
  - intuition (try lia; try discriminate; try reflexivity).
Qed.

End Lifecycle.

(** * The factory and the expansion, end to end *)

Section Factory.

Context {Dumped : Type} `{!Collaborators Dumped}.

#[local] Existing Instance M_ret.
#[local] Existing Instance M_bind.

Ltac monad_norm := unfold mbind, mret, M_bind, M_ret in *.

(** [get_test_variants]: each expanded test with its variant. *)
Definition get_test_variants
    : M Dumped (list (Runnable Dumped * option Dumped)) :=
  l ← _get_test_variants;
  ret (map (fun test => (test, variant test)) l).

(** The hint handed to the resolver. *)
Definition hint_of_cwd : option Hint :=
  if path_exists ".avocado.hint" then Some (HintParser ".avocado.hint")
  else None.

(** An exception of the resolver, as [from_config] lets it out. *)
Definition wrapped (e : exn) : exn :=
  match e with
  | JobTestSuiteReferenceResolutionError details => TestSuiteError details
  | _ => e
  end.

(** A failure of the resolver ends [from_config]: the resolver's own
    JobTestSuiteReferenceResolutionError comes out as TestSuiteError with
    the same details, any other exception as it is. *)
Theorem from_config_resolver_error (config : Config) name job e :
  let cfg := from_config_merge config job in
  resolve (cfg !! "resolver.references") hint_of_cwd
    (cfg !! "run.ignore_missing_references") cfg = Raise e ->
  from_config config name job = Raise (wrapped e).
Proof.
  intros cfg E. unfold from_config. cbv zeta. fold cfg.
  unfold _from_config_with_resolver. cbv zeta.
  fold hint_of_cwd. rewrite E. destruct e; reflexivity.
Qed.

(** A suite [from_config] returns while missing references are not
    tolerated has at least one test. *)
Theorem from_config_found_tests (config : Config) name job
    (s : TestSuite Dumped) :
  from_config config name job = Ok s ->
  truthy_opt (from_config_merge config job !! "run.ignore_missing_references")
  = false ->
  status s = TESTS_FOUND /\ 0 < size s.
Proof.
  unfold from_config. cbv zeta.
  set (cfg := from_config_merge config job).
  intros E Hi.
  destruct (_from_config_with_resolver cfg name) as [s0|e]; [|discriminate].
  monad_norm. unfold bind in E.
  destruct (expand_tests s0) as [[[] s1]|e]; [|discriminate].
  unfold check_tests_found in E. rewrite Hi in E. simpl in E.
  monad_norm. unfold bind, get, raise, ret in E.
  destruct (tests_truthy s1) eqn:Ht; simpl in E; [|discriminate].
  injection E as <-.
  unfold tests_truthy in Ht. unfold status, size.
  destruct (tests s1) as [[|r l]|]; try discriminate.
  split; [reflexivity|]. simpl length. lia.
Qed.

(** Layering the merged configuration over the defaults once more, as the
    constructor does when [from_config] calls it, changes nothing. *)
Lemma init_layers_merge (config : Config) job :
  init_layers (Some (from_config_merge config job)) None
  = from_config_merge config job.
Proof.
  apply map_eq. intros k. unfold init_layers. simpl update_if at 2.
  rewrite lookup_update_if. simpl layer_get.
  destruct (from_config_merge config job !! k) as [v|] eqn:E; [reflexivity|].
  unfold from_config_merge in E. cbv zeta in E.
  rewrite lookup_dict_update, lookup_update_if in E.
  destruct (config !! k); [discriminate|].
  destruct (layer_get job k); [discriminate|]. exact E.
Qed.

(** Every suite [from_config] returns carries exactly the configuration it
    merged and handed to the resolver. *)
Theorem from_config_config (suite_config : Config) nm job
    (s : TestSuite Dumped) :
  from_config suite_config nm job = Ok s ->
  config s = from_config_merge suite_config job.
Proof.
  unfold from_config. cbv zeta.
  set (cfg := from_config_merge suite_config job). intros E.
  destruct (_from_config_with_resolver cfg nm) as [s0|e] eqn:E0;
    [|discriminate].
  destruct (bind expand_tests (fun _ => check_tests_found cfg) s0)
    as [[u s1]|e] eqn:E1.
  - monad_norm. rewrite E1 in E. injection E as <-.
    assert (K : keeps config
                  (bind expand_tests (fun _ => check_tests_found cfg))).
    { apply keeps_bind; [apply expand_tests_keeps_config|intros _].
      apply check_tests_found_keeps. }
    rewrite (K _ _ _ E1).
    unfold _from_config_with_resolver in E0. cbv zeta in E0.
    destruct (resolve _ _ _ _) as [rs|[]]; try discriminate.
    apply init_config in E0. rewrite E0. apply init_layers_merge.
  - monad_norm. rewrite E1 in E. discriminate.
Qed.

Lemma get_test_variants_keeps_tests : keeps tests _get_test_variants.
Proof.
  unfold _get_test_variants. monad_norm.
  apply keeps_bind; [apply test_parameters_keeps_tests|intros tp].
  case_match.
  { apply keeps_bind; [apply iter_tests_keeps|intros; apply keeps_ret]. }
  apply keeps_bind; [apply variants_keeps_tests|intros vs].
  case_match; [|apply keeps_ret].
  apply keeps_bind; [apply keeps_get|intros self].
  repeat case_match; try apply keeps_ret.
  - apply keeps_bind; [apply iter_tests_keeps|intros l].
    apply keeps_for_each. intros acc x.
    apply keeps_bind; [apply variants_keeps_tests|intros; apply keeps_ret].
  - apply keeps_bind; [apply variants_keeps_tests|intros vs'].
    apply keeps_for_each. intros acc x.
    apply keeps_bind; [apply iter_tests_keeps|intros; apply keeps_ret].
Qed.

(** A loop keeps what every run of its body keeps, of the suite and of the
    accumulator. *)
Lemma for_each_invariant {A B} (I : TestSuite Dumped -> Prop) (P : B -> Prop)
    (body : B -> A -> M Dumped B) l :
  (forall acc x s a s', In x l -> I s -> P acc ->
     body acc x s = Ok (a, s') -> I s' /\ P a) ->
  forall acc s a s', I s -> P acc -> for_each body l acc s = Ok (a, s') ->
    I s' /\ P a.
Proof.
  induction l as [|x l IH]; intros Hb acc s a s' HI HP; simpl.
  - intros [= <- <-]. split; assumption.
  - monad_norm. unfold bind.
    destruct (body acc x s) as [[acc1 s1]|e] eqn:E1; [|discriminate].
    destruct (Hb _ _ _ _ _ (or_introl eq_refl) HI HP E1) as [HI1 HP1].
    apply IH; [|assumption|assumption].
    intros acc0 x0 s0 a0 s0' Hin. apply Hb. right. exact Hin.
Qed.

(** [r'] is a copy of one of the tests [l], with a dumped variant attached
    and nothing else changed. *)
Definition copy_of (l : list (Runnable Dumped)) (r' : Runnable Dumped) : Prop :=
  exists r v, In r l /\ r' = bound r v.

Lemma add_variant_copies l acc r v :
  Forall (copy_of l) acc -> In r l -> Forall (copy_of l) (add_variant acc r v).
Proof.
  intros Hacc Hin. unfold add_variant. cbv zeta. apply Forall_app. split;
    [exact Hacc|]. constructor; [|constructor]. exists r, v. split;
    [exact Hin|reflexivity].
Qed.

Lemma fold_variants_copies l acc r (vs : list Variant) :
  Forall (copy_of l) acc -> In r l ->
  Forall (copy_of l)
    (fold_left (fun acc v => add_variant acc r v) vs acc).
Proof.
  revert acc. induction vs as [|v vs IH]; intros acc Hacc Hin; simpl;
    [exact Hacc|].
  apply IH; [apply add_variant_copies; assumption|exact Hin].
Qed.

Lemma fold_tests_copies l acc (rs : list (Runnable Dumped)) v :
  Forall (copy_of l) acc -> (forall r, In r rs -> In r l) ->
  Forall (copy_of l)
    (fold_left (fun acc r => add_variant acc r v) rs acc).
Proof.
  revert acc. induction rs as [|r rs IH]; intros acc Hacc Hin; simpl;
    [exact Hacc|].
  apply IH.
  - apply add_variant_copies; [exact Hacc|]. apply Hin. left. reflexivity.
  - intros r0 H0. apply Hin. right. exact H0.
Qed.

Lemma get_test_variants_copies (self : TestSuite Dumped) out s' :
  _get_test_variants self = Ok (out, s') ->
  out = [] \/ exists l, tests self = Some l /\ Forall (copy_of l) out.
Proof.
  unfold _get_test_variants. cbv zeta. monad_norm. unfold bind at 1.
  destruct (test_parameters self) as [[tp s1]|e] eqn:Ep; [|discriminate].
  pose proof (test_parameters_keeps_tests _ _ _ Ep) as K1.
  destruct (dict_truthy tp).
  { unfold bind, iter_tests. monad_norm. unfold bind, get, ret, raise.
    destruct (tests s1) as [l|] eqn:Ht; [|discriminate].
    intros [= <- <-]. right. exists l. split; [congruence|].
    apply fold_tests_copies; [constructor|auto]. }
  unfold bind at 1.
  destruct (variants s1) as [[vs s2]|e] eqn:Ev; [|discriminate].
  pose proof (variants_keeps_tests _ _ _ Ev) as K2.
  destruct (varianter_truthy vs); [|intros [= <- <-]; left; reflexivity].
  unfold bind at 1. unfold get at 1.
  destruct (eq_str _ "variants-per-test").
  { unfold bind at 1. unfold iter_tests. monad_norm.
    unfold bind at 1. unfold get at 1.
    destruct (tests s2) as [l|] eqn:Ht; [|discriminate].
    unfold ret at 1. intros E. right. exists l. split; [congruence|].
    refine (proj2 (for_each_invariant (fun _ => True) (Forall (copy_of l))
                     _ l _ [] s2 out s' I ltac:(constructor) E)).
    intros acc r s a s0 Hin _ HP. unfold bind.
    destruct (variants s) as [[vs0 s3]|e]; [|discriminate].
    unfold ret. intros [= <- <-]. split; [exact I|].
    apply fold_variants_copies; assumption. }
  destruct (eq_str _ "tests-per-variant");
    [|intros [= <- <-]; left; reflexivity].
  unfold bind at 1.
  destruct (variants s2) as [[vs' s3]|e] eqn:Ev'; [|discriminate].
  pose proof (variants_keeps_tests _ _ _ Ev') as K3.
  intros E.
  destruct (tests s3) as [l|] eqn:Ht.
  - right. exists l. split; [congruence|].
    refine (proj2 (for_each_invariant (fun s => tests s = Some l)
                     (Forall (copy_of l)) _ (itertests vs') _ [] s3 out s'
                     Ht ltac:(constructor) E)).
    intros acc v s a s0 _ HI HP. unfold bind, iter_tests. monad_norm.
    unfold bind, get, ret. rewrite HI. intros [= <- <-].
    split; [exact HI|]. apply fold_tests_copies; auto.
  - left.
    refine (proj2 (for_each_invariant (fun s => tests s = None)
                     (fun acc => acc = []) _ (itertests vs') _ [] s3 out s'
                     Ht eq_refl E)).
    intros acc v s a s0 _ HI HP. unfold bind, iter_tests. monad_norm.
    unfold bind, get, raise. rewrite HI. discriminate.
Qed.

(** What [get_test_variants] returns: the test list of the suite is as it
    was, and every pair is a copy of one of its tests, differing from it in
    the attached variant only, together with that variant. *)
Theorem get_test_variants_pairs (self : TestSuite Dumped) pairs s' :
  get_test_variants self = Ok (pairs, s') ->
  tests s' = tests self
  /\ Forall (fun p : Runnable Dumped * option Dumped =>
               snd p = variant (fst p)
               /\ exists r v l,
                    tests self = Some l /\ In r l
                    /\ variant (fst p) = Some (dump_variant v)
                    /\ kind (fst p) = kind r /\ uri (fst p) = uri r
                    /\ tags (fst p) = tags r
                    /\ default_config (fst p) = default_config r) pairs.
Proof.
  unfold get_test_variants. monad_norm. unfold bind, ret.
  destruct (_get_test_variants self) as [[out s1]|e] eqn:E; [|discriminate].
  intros [= <- <-]. split; [apply (get_test_variants_keeps_tests _ _ _ E)|].
  destruct (get_test_variants_copies _ _ _ E) as [-> | (l & Ht & Hall)];
    [constructor|].
  clear E. induction Hall as [|r' out' (r & v & Hin & ->) _ IH]; simpl; constructor.
  - split; [reflexivity|]. exists r, v, l. simpl. repeat split; assumption.
  - exact IH.
Qed.

(** End to end without parameters, variants and dry-run: [from_config]
    returns a suite whose tests are the resolved runnables and whose name
    is the one given or else the uuid; an empty result needs missing
    references tolerated. *)
Theorem from_config_plain (suite_config : Config) nm job rs vs :
  let cfg := from_config_merge suite_config job in
  resolve (cfg !! "resolver.references") hint_of_cwd
    (cfg !! "run.ignore_missing_references") cfg = Ok rs ->
  py_iter (default (PList []) (cfg !! "run.test_parameters")) = Ok [] ->
  is_parsed Varianter_new = false ->
  parse Varianter_new cfg = Ok vs -> varianter_truthy vs = false ->
  truthy_opt (cfg !! "run.dry_run.enabled") = false ->
  resolutions_to_runnables rs cfg <> []
  \/ truthy_opt (cfg !! "run.ignore_missing_references") = true ->
  exists s : TestSuite Dumped,
    from_config suite_config nm job = Ok s
    /\ tests s = Some (resolutions_to_runnables rs cfg)
    /\ name s = default uuid4_str nm.
Proof.
  intros cfg Hres Hp Hparsed Hparse Hv Hd Hfound.
  unfold from_config. cbv zeta. fold cfg.
  unfold _from_config_with_resolver. cbv zeta. fold hint_of_cwd.
  rewrite Hres, init_unfold. unfold cfg at 1 2.
  rewrite init_layers_merge. fold cfg.
  set (nm' := match nm with Some n => n | None => uuid4_str end).
  set (ts := resolutions_to_runnables rs cfg) in *.
  set (s0 := fresh_suite nm' cfg (Some ts) (Some rs) true).
  assert (E0 : init_steps cfg s0
               = Ok (tt, set_test_parameters (Some []) s0)).
  { unfold init_steps, _check_both_parameters_and_variants,
      _has_both_parameters_and_variants, test_parameters. monad_norm.
    unfold bind, get, lift, modify, ret. simpl. rewrite Hp, Hd.
    reflexivity. }
  rewrite E0.
  set (s1 := set_test_parameters (Some []) s0).
  assert (E1 : expand_tests s1 = Ok (tt, set_variants (Some vs) s1)).
  { unfold expand_tests, test_parameters, variants. cbv zeta. monad_norm.
    unfold bind, get, lift, modify, ret. simpl.
    rewrite Hparsed. simpl. rewrite Hparse, Hv. reflexivity. }
  monad_norm. unfold bind at 1. rewrite E1.
  exists (set_variants (Some vs) s1). split.
  - unfold check_tests_found.
    destruct (truthy_opt (cfg !! "run.ignore_missing_references")) eqn:Hi;
      simpl; [reflexivity|].
    monad_norm. unfold bind, get, ret, raise. unfold tests_truthy. simpl.
    destruct ts as [|r l] eqn:Ets; [|reflexivity].
    destruct Hfound as [H|H]; [contradiction|discriminate].
  - repeat split.
Qed.

End Factory.

(** * The properties on the concrete collaborators *)

Import Demo.

Definition job_layer : Config :=
  <["run.suite_runner" := PStr "other"]>
  (<["run.execution_order" := PStr "tests-per-variant"]> ∅).

Definition suite_layer : Config :=
  <["run.suite_runner" := PStr "nrunner"]> with_variants.

(** The suite the constructor returns: the fresh object with the test
    parameters read once. *)
Definition built (cfg : Config) (ts : option (list (Runnable Variant)))
    (tp : pydict) : TestSuite Variant :=
  set_test_parameters (Some tp) (fresh_suite "suite" cfg ts None true).

Definition abc : @Varianter Variant demo :=
  map variant_of [PStr "a"; PStr "b"; PStr "c"].

Definition no_variants : @Varianter Variant demo := [].

Definition sleep_1 : pydict := [(PStr "sleep", PStr "1")].

Lemma config_precedence_witness :
  let s := built (init_layers (Some suite_layer) (Some job_layer))
             (Some two_tests) [] in
  __init__ "suite" (Some suite_layer) (Some two_tests) (Some job_layer) None
    true = Ok s
  /\ config s !! "run.suite_runner" = Some (PStr "nrunner")
  /\ config s !! "run.execution_order" = Some (PStr "tests-per-variant")
  /\ config s !! "run.dry_run.enabled" = Some (PBool false).
Proof.
  intros s.
  assert (E : __init__ "suite" (Some suite_layer) (Some two_tests)
                (Some job_layer) None true = Ok s) by reflexivity.
  pose proof (fun k =>
    proj1 (proj2 (config_precedence (Dumped := Variant) suite_layer
                    (Some job_layer) k))
      "suite" (Some two_tests) None true s E) as P.
  split; [exact E|]. split; [|split].
  - etransitivity; [apply (P "run.suite_runner")|reflexivity].
  - etransitivity; [apply (P "run.execution_order")|reflexivity].
  - etransitivity; [apply (P "run.dry_run.enabled")|reflexivity].
Defined.

Lemma parameters_and_variants_exclusive_witness :
  __init__ "suite" (Some with_both) (Some two_tests) None None true
  = Raise (TestSuiteError err_msg)
  /\ _check_both_parameters_and_variants
       (fresh_suite "suite" (init_layers (Some with_variants) None)
          (Some two_tests) None true)
     = Ok (tt, built (init_layers (Some with_variants) None)
                 (Some two_tests) [])
  /\ _check_both_parameters_and_variants
       (fresh_suite "suite" (init_layers (Some with_parameters) None)
          (Some two_tests) None true)
     = Ok (tt, set_variants (Some no_variants)
                 (built (init_layers (Some with_parameters) None)
                    (Some two_tests) sleep_1)).
Proof.
  split; [|split].
  - apply (proj1 (parameters_and_variants_exclusive (Dumped := Variant))
             "suite" (Some with_both) (Some two_tests) None None true sleep_1
             (built (init_layers (Some with_both) None) (Some two_tests)
                sleep_1)
             abc
             (set_variants (Some abc)
                (built (init_layers (Some with_both) None) (Some two_tests)
                   sleep_1)));
      [reflexivity|reflexivity|reflexivity|].
    apply Exists_cons_hd. reflexivity.
  - apply (proj1 (proj2 (parameters_and_variants_exclusive (Dumped := Variant)))
             (fresh_suite "suite" (init_layers (Some with_variants) None)
                (Some two_tests) None true) []); reflexivity.
  - apply (proj2 (proj2 (parameters_and_variants_exclusive (Dumped := Variant)))
             (fresh_suite "suite" (init_layers (Some with_parameters) None)
                (Some two_tests) None true) sleep_1
             (built (init_layers (Some with_parameters) None)
                (Some two_tests) sleep_1) no_variants); try reflexivity.
    constructor.
Defined.

Definition three_resolutions : list (ReferenceResolution Variant) :=
  map resolve_one [PStr "/bin/true"; PStr ""; PStr "/bin/false"].

Lemma resolutions_to_runnables_unfiltered_witness :
  truthy_opt (defaults !! "filter.by_tags.tags") = false
  /\ length (resolutions_to_runnables three_resolutions defaults) = 2%nat
  /\ resolutions_to_runnables [resolve_one (PStr "")] defaults = [].
Proof.
  split; [reflexivity|]. split.
  - etransitivity;
      [apply (resolutions_to_runnables_unfiltered (Dumped := Variant)
                three_resolutions defaults eq_refl)|reflexivity].
  - apply (resolutions_to_runnables_unfiltered (Dumped := Variant)
             [resolve_one (PStr "")] defaults eq_refl).
    constructor; [discriminate|constructor].
Defined.

Lemma status_projection_witness :
  status (fresh_suite (Dumped := Variant) "suite" defaults None None true)
  = RESOLUTION_NOT_STARTED
  /\ status (fresh_suite (Dumped := Variant) "suite" defaults (Some []) None true)
     = TESTS_NOT_FOUND
  /\ status (fresh_suite "suite" defaults (Some two_tests) None true)
     = TESTS_FOUND.
Proof.
  split; [|split].
  - apply (status_projection
             (fresh_suite (Dumped := Variant) "suite" defaults None None true)).
    reflexivity.
  - apply (status_projection
             (fresh_suite (Dumped := Variant) "suite" defaults (Some []) None
                true)).
    reflexivity.
  - apply (proj1 (proj2 (proj2 (status_projection
             (fresh_suite "suite" defaults (Some two_tests) None true))))
             (exec_test "/bin/true") [exec_test "/bin/false"]).
    reflexivity.
Defined.

Lemma convert_to_dry_run_idempotent_witness :
  let self := fresh_suite "suite" defaults (Some two_tests) None true in
  tests self = Some two_tests
  /\ eq_str (config self !! "run.suite_runner") "nrunner" = true
  /\ bind _convert_to_dry_run (fun _ => _convert_to_dry_run) self
     = _convert_to_dry_run self
  /\ (exists l',
        _convert_to_dry_run self = Ok (tt, set_tests (Some l') self)
        /\ Forall2 (fun r r' : Runnable Variant =>
                      kind r' = "dry-run" /\ uri r' = uri r
                      /\ tags r' = tags r
                      /\ default_config r' = default_config r
                      /\ variant r' = variant r) two_tests l'
        /\ exists self',
             _convert_to_dry_run self = Ok (tt, self')
             /\ tests self' = Some l'
             /\ config self' = config self).
Proof.
  intros self.
  pose proof (convert_to_dry_run_idempotent self two_tests eq_refl)
    as (_ & Hrun & _ & Hidem).
  split; [reflexivity|]. split; [reflexivity|]. split; [exact Hidem|].
  apply Hrun. reflexivity.
Defined.

Definition random_order : Config :=
  <["run.execution_order" := PStr "random"]> with_variants.

Lemma get_test_variants_order_witness :
  let self := built (init_layers (Some with_variants) None) (Some two_tests) []
  in
  let out := flat_map (fun r => map (bound r) abc) two_tests in
  _get_test_variants self = Ok (out, set_variants (Some abc) self)
  /\ length out = 6%nat
  /\ map (fun r' : Runnable Variant => (uri r', variant r')) out
     = [(Some "/bin/true", Some (variant_of (PStr "a")));
        (Some "/bin/true", Some (variant_of (PStr "b")));
        (Some "/bin/true", Some (variant_of (PStr "c")));
        (Some "/bin/false", Some (variant_of (PStr "a")));
        (Some "/bin/false", Some (variant_of (PStr "b")));
        (Some "/bin/false", Some (variant_of (PStr "c")))].
Proof.
  intros self out.
  assert (Ho : eq_str (config self !! "run.execution_order")
                 "variants-per-test" = true) by reflexivity.
  destruct (proj1 (get_test_variants_order self two_tests [] self abc
                     (set_variants (Some abc) self)
                     eq_refl eq_refl eq_refl eq_refl eq_refl) Ho)
    as (H1 & H2 & H3).
  split; [exact H1|]. split; [exact H2|].
  apply (f_equal (map (fun t : string * option string
                               * option (gmap string (gset string)) * Config
                               * option Variant =>
                         (snd (fst (fst (fst t))), snd t)))) in H3.
  rewrite map_map in H3. exact H3.
Defined.

Lemma get_test_variants_unknown_order_witness :
  let self := built (init_layers (Some random_order) None) (Some two_tests) []
  in
  _get_test_variants self = Ok ([], set_variants (Some abc) self).
Proof.
  intros self.
  apply (get_test_variants_unknown_order self [] self abc); reflexivity.
Defined.

Lemma get_test_variants_parameters_witness :
  let self := fresh_suite "suite" (init_layers (Some with_parameters) None)
                (Some two_tests) None true in
  let synthetic :=
    {| v_variant := Node {| tn_name := ""; value := sleep_1 |};
       variant_id := None; paths := ["/"] |} in
  _get_test_variants self
  = Ok ([bound (exec_test "/bin/true") synthetic;
         bound (exec_test "/bin/false") synthetic],
        set_test_parameters (Some sleep_1) self)
  /\ map (fun r' : Runnable Variant =>
            (kind r', uri r', tags r', default_config r', variant r'))
       [bound (exec_test "/bin/true") synthetic;
        bound (exec_test "/bin/false") synthetic]
     = [("exec-test", Some "/bin/true", None, ∅, Some synthetic);
        ("exec-test", Some "/bin/false", None, ∅, Some synthetic)].
Proof.
  intros self synthetic.
  pose proof (get_test_variants_parameters self two_tests sleep_1
                (set_test_parameters (Some sleep_1) self)
                eq_refl eq_refl eq_refl) as (H & _ & _ & Hf).
  split; [exact H|exact Hf].
Defined.

Definition no_references : Config := {[ "resolver.references" := PList [] ]}.

Definition tolerant : Config :=
  <["run.ignore_missing_references" := PBool true]> no_references.

(** The suite [from_config] has built from a configuration without
    references: no tests, no parameters, no variants. *)
Definition empty_suite (cfg : Config) : TestSuite Variant :=
  set_variants (Some no_variants)
    (set_test_parameters (Some [])
       (fresh_suite "suite" cfg (Some []) (Some []) true)).

Lemma from_config_empty_suite_witness :
  from_config no_references (Some "suite") None
  = Raise (TestSuiteError no_tests_msg)
  /\ from_config tolerant (Some "suite") None
     = Ok (empty_suite (from_config_merge tolerant None))
  /\ size (empty_suite (from_config_merge tolerant None)) = 0%Z.
Proof.
  assert (B1 : _from_config_with_resolver
                 (from_config_merge no_references None) (Some "suite")
               = Ok (set_test_parameters (Some [])
                       (fresh_suite "suite"
                          (from_config_merge no_references None)
                          (Some []) (Some []) true))) by reflexivity.
  assert (X1 : expand_tests
                 (set_test_parameters (Some [])
                    (fresh_suite "suite"
                       (from_config_merge no_references None)
                       (Some []) (Some []) true))
               = Ok (tt, empty_suite (from_config_merge no_references None)))
    by reflexivity.
  assert (B2 : _from_config_with_resolver
                 (from_config_merge tolerant None) (Some "suite")
               = Ok (set_test_parameters (Some [])
                       (fresh_suite "suite" (from_config_merge tolerant None)
                          (Some []) (Some []) true))) by reflexivity.
  assert (X2 : expand_tests
                 (set_test_parameters (Some [])
                    (fresh_suite "suite" (from_config_merge tolerant None)
                       (Some []) (Some []) true))
               = Ok (tt, empty_suite (from_config_merge tolerant None)))
    by reflexivity.
  split.
  - exact (proj1 (from_config_empty_suite (Dumped := Variant) no_references
                    (Some "suite") None _ _ B1 X1 eq_refl) eq_refl).
  - exact (proj2 (from_config_empty_suite (Dumped := Variant) tolerant
                    (Some "suite") None _ _ B2 X2 eq_refl) eq_refl).
Defined.

Definition dry_run : Config := {[ "run.dry_run.enabled" := PBool true ]}.

Definition dry_run_with_both : Config :=
  <["run.dry_run.enabled" := PBool true]> with_both.

Lemma init_dry_run_without_tests_witness :
  truthy_opt (init_layers (Some dry_run) None !! "run.dry_run.enabled") = true
  /\ eq_str (init_layers (Some dry_run) None !! "run.suite_runner") "nrunner"
     = true
  /\ __init__ (Dumped := Variant) "suite" (Some dry_run) None None None true
     = Raise (TypeError "'NoneType' object is not iterable").
Proof.
  split; [reflexivity|]. split; [reflexivity|].
  apply (init_dry_run_without_tests (Dumped := Variant) "suite" (Some dry_run)
           None None true
           (set_test_parameters (Some [])
              (fresh_suite "suite" (init_layers (Some dry_run) None) None None
                 true)));
    reflexivity.
Defined.

(** C10 as stated fails: dry-run is enabled, the runner is "nrunner" and no
    tests were given, yet the constructor raises the TestSuiteError of the
    mutual-exclusion check, which runs before the dry-run conversion. *)
Lemma init_dry_run_without_tests_counterexample :
  truthy_opt (init_layers (Some dry_run_with_both) None
                !! "run.dry_run.enabled") = true
  /\ eq_str (init_layers (Some dry_run_with_both) None !! "run.suite_runner")
       "nrunner" = true
  /\ __init__ (Dumped := Variant) "suite" (Some dry_run_with_both) None None
       None true
     = Raise (TestSuiteError err_msg)
  /\ (forall details,
        __init__ (Dumped := Variant) "suite" (Some dry_run_with_both) None
          None None true
        <> Raise (TypeError details)).
Proof.
  assert (E : __init__ (Dumped := Variant) "suite" (Some dry_run_with_both)
                None None None true = Raise (TestSuiteError err_msg))
    by reflexivity.
  split; [reflexivity|]. split; [reflexivity|]. split; [exact E|].
  intros details. rewrite E. discriminate.
Qed.

(** ** Statistics and dispatch on the concrete collaborators *)

(** [str.lower] on ASCII letters. *)
Definition lower_ascii (c : Ascii.ascii) : Ascii.ascii :=
  let n := Ascii.nat_of_ascii c in
  if ((65 <=? n) && (n <=? 90))%nat then Ascii.ascii_of_nat (n + 32) else c.

Fixpoint ascii_lower (s : string) : string :=
  match s with
  | EmptyString => EmptyString
  | String c s' => String (lower_ascii c) (ascii_lower s')
  end.

Definition tagged (k : string) (t : option (gmap string (gset string)))
    : Runnable Variant :=
  {| kind := k; uri := None; tags := t; default_config := ∅;
     variant := None |}.

Definition three_tests : list (Runnable Variant) :=
  [tagged "exec-test" (Some {[ "fast" := ∅ ]});
   tagged "Exec-Test" (Some (<["Fast" := {[ "very" ]}]> {[ "net" := ∅ ]}));
   tagged "python" None].

Definition three_suite : TestSuite Variant :=
  fresh_suite "suite" defaults (Some three_tests) None true.

Definition other_runner : Config := {[ "run.suite_runner" := PStr "other" ]}.

Definition three_stats : gmap string Z :=
  <["python" := 1]> (<["exec-test" := 2]> ∅).

Lemma stats_counts_kinds_witness :
  exists m, stats ascii_lower three_suite = Ok m
    /\ m !! "exec-test" = Some 2 /\ m !! "python" = Some 1
    /\ m !! "Exec-Test" = None.
Proof.
  destruct (stats_counts_kinds ascii_lower three_suite three_tests
              eq_refl eq_refl) as (m & E & H).
  exists m. split; [exact E|]. rewrite !H. repeat split.
Defined.

Lemma tags_stats_counts_names_witness :
  exists m, tags_stats ascii_lower three_suite = Ok m
    /\ m !! "fast" = Some 2 /\ m !! "net" = Some 1 /\ m !! "very" = None.
Proof.
  destruct (tags_stats_counts_names ascii_lower three_suite three_tests
              eq_refl eq_refl) as (m & E & H).
  exists m. split; [exact E|]. rewrite !H. repeat split.
Defined.

Lemma stats_runner_guard_witness :
  stats ascii_lower
    (fresh_suite (Dumped := Variant) "suite" other_runner None None true)
  = Ok ∅
  /\ stats ascii_lower
       (fresh_suite (Dumped := Variant) "suite" defaults None None true)
     = Raise (TypeError "'NoneType' object is not iterable").
Proof.
  split.
  - apply (proj1 (stats_runner_guard ascii_lower
                    (fresh_suite (Dumped := Variant) "suite" other_runner
                       None None true)) eq_refl).
  - apply (proj2 (stats_runner_guard ascii_lower
                    (fresh_suite (Dumped := Variant) "suite" defaults
                       None None true)) eq_refl eq_refl).
Defined.

Lemma stats_total_is_size_witness :
  stats ascii_lower three_suite = Ok three_stats /\ total three_stats = 3.
Proof.
  assert (E : stats ascii_lower three_suite = Ok three_stats) by reflexivity.
  split; [exact E|].
  exact (stats_total_is_size ascii_lower three_suite three_stats eq_refl E).
Defined.

Lemma stats_order_independent_witness :
  stats ascii_lower
    (fresh_suite "suite" defaults
       (Some [exec_test "/bin/false"; exec_test "/bin/true"]) None true)
  = stats ascii_lower (fresh_suite "suite" defaults (Some two_tests) None true).
Proof.
  apply (stats_order_independent ascii_lower
           (fresh_suite "suite" defaults (Some two_tests) None true)
           (fresh_suite "suite" defaults
              (Some [exec_test "/bin/false"; exec_test "/bin/true"]) None true)
           two_tests [exec_test "/bin/false"; exec_test "/bin/true"]
           eq_refl eq_refl eq_refl).
  apply perm_swap.
Defined.

(** A registry that knows the runner "nrunner" only; running a suite
    reports how many tests it holds. *)
Definition demo_dispatcher (runner_name : option pyval)
    : option (@Runner Variant demo) :=
  if eq_str runner_name "nrunner" then Some tt else None.

Definition demo_run_suite (r : @Runner Variant demo) (job : unit)
    : M Variant Z :=
  fun suite => Ok (size suite, suite).

Lemma run_dispatches_witness :
  run unit Z demo_dispatcher demo_run_suite tt
    (fresh_suite "suite" other_runner (Some two_tests) None true)
  = Raise (TestSuiteError "Runner not implemented.")
  /\ run unit Z demo_dispatcher demo_run_suite tt
       (fresh_suite "suite" defaults (Some two_tests) None true)
     = Ok (2, set_runner (Some tt)
                (fresh_suite "suite" defaults (Some two_tests) None true)).
Proof.
  split.
  - apply (proj1 (run_dispatches unit Z demo_dispatcher demo_run_suite
                    (fresh_suite "suite" other_runner (Some two_tests) None
                       true) tt) eq_refl eq_refl).
  - destruct (proj1 (proj2 (run_dispatches unit Z demo_dispatcher
                              demo_run_suite
                              (fresh_suite "suite" defaults (Some two_tests)
                                 None true) tt)) tt eq_refl eq_refl)
      as (s' & Hr & _ & _ & _ & _ & _ & _ & _ & _ & _ & Hrun & _).
    rewrite Hrun. injection Hr as <-. reflexivity.
Defined.

(** ** Construction and the factory on the concrete collaborators *)

Lemma init_keeps_arguments_witness :
  let s := built (init_layers (Some suite_layer) (Some job_layer))
             (Some two_tests) [] in
  __init__ "suite" (Some suite_layer) (Some two_tests) (Some job_layer) None
    true = Ok s
  /\ name s = "suite" /\ enabled s = true /\ size s = 2
  /\ tests s = Some two_tests.
Proof.
  intros s.
  assert (E : __init__ "suite" (Some suite_layer) (Some two_tests)
                (Some job_layer) None true = Ok s) by reflexivity.
  destruct (init_keeps_arguments "suite" (Some suite_layer) (Some two_tests)
              (Some job_layer) None true s E)
    as (Hn & He & _ & _ & Hs & Ht).
  split; [exact E|]. split; [exact Hn|]. split; [exact He|].
  split; [exact Hs|]. apply Ht. reflexivity.
Defined.

Definition dry_suite : TestSuite Variant :=
  set_tests (Some (map (set_kind "dry-run") two_tests))
    (built (init_layers (Some dry_run) None) (Some two_tests) []).

Lemma init_dry_run_kinds_witness :
  __init__ "suite" (Some dry_run) (Some two_tests) None None true
  = Ok dry_suite
  /\ exists l l',
       Some two_tests = Some l /\ tests dry_suite = Some l'
       /\ Forall (fun r' : Runnable Variant => kind r' = "dry-run") l'
       /\ Forall2 (fun r r' : Runnable Variant =>
                     uri r' = uri r /\ tags r' = tags r
                     /\ default_config r' = default_config r
                     /\ variant r' = variant r) l l'.
Proof.
  assert (E : __init__ "suite" (Some dry_run) (Some two_tests) None None true
              = Ok dry_suite) by reflexivity.
  split; [exact E|].
  exact (init_dry_run_kinds "suite" (Some dry_run) (Some two_tests) None None
           true dry_suite E eq_refl eq_refl).
Defined.

Lemma init_without_parameters_witness :
  exists s : TestSuite Variant,
    __init__ "suite" (Some with_variants) (Some two_tests) None None true
    = Ok s
    /\ _variants s = None /\ _test_parameters s = Some [].
Proof.
  assert (Hp : py_iter (default (PList [])
                          (init_layers (Some with_variants) None
                             !! "run.test_parameters")) = Ok [])
    by reflexivity.
  assert (Hd : truthy_opt (init_layers (Some with_variants) None
                             !! "run.dry_run.enabled") = false)
    by reflexivity.
  exact (init_without_parameters (Dumped := Variant) "suite"
           (Some with_variants) (Some two_tests) None None true Hp
           (or_introl Hd)).
Defined.

Definition bad_variants : Config := {[ "demo.variants" := PStr "a, b" ]}.

Definition parameters_and_bad_variants : Config :=
  with_parameters ∪ bad_variants.

Lemma variants_parse_failure_witness :
  variants (fresh_suite (Dumped := Variant) "suite" bad_variants None None
              true)
  = Raise (OptionValidationError
             "Unable to parse variant: demo.variants is not a list")
  /\ __init__ (Dumped := Variant) "suite" (Some parameters_and_bad_variants)
       (Some two_tests) None None true
     = Raise (OptionValidationError
                "Unable to parse variant: demo.variants is not a list").
Proof.
  assert (Hf : parse (Varianter_new (Dumped := Variant)) bad_variants
               = Raise (ValueError "demo.variants is not a list"))
    by reflexivity.
  set (self := fresh_suite (Dumped := Variant) "suite"
                 (init_layers (Some parameters_and_bad_variants) None)
                 (Some two_tests) None true).
  assert (Hg : parse (Varianter_new (Dumped := Variant)) (config self)
               = Raise (ValueError "demo.variants is not a list"))
    by reflexivity.
  assert (Ep : test_parameters self
               = Ok (sleep_1, set_test_parameters (Some sleep_1) self))
    by reflexivity.
  split.
  - exact (proj1 (variants_parse_failure
                    (fresh_suite (Dumped := Variant) "suite" bad_variants None
                       None true)
                    "demo.variants is not a list" eq_refl eq_refl
                    (or_intror Hf))).
  - exact (proj2 (proj2 (variants_parse_failure self
                           "demo.variants is not a list" eq_refl eq_refl
                           (or_intror Hg)))
             "suite" (Some parameters_and_bad_variants) (Some two_tests) None
             None true sleep_1 _ eq_refl Ep eq_refl).
Defined.

Lemma lazy_properties_computed_once_witness :
  let self := fresh_suite "suite" (init_layers (Some with_parameters) None)
                (Some two_tests) None true in
  let s1 := set_test_parameters (Some sleep_1) self in
  test_parameters (set_config ∅ s1) = Ok (sleep_1, set_config ∅ s1).
Proof.
  intros self s1.
  assert (E : test_parameters self = Ok (sleep_1, s1)) by reflexivity.
  exact (proj1 (lazy_properties_computed_once self s1) sleep_1 E ∅).
Defined.

Lemma test_parameters_reads_pairs_witness :
  let self := fresh_suite "suite" with_parameters (Some two_tests) None true in
  test_parameters self
  = Ok (sleep_1, set_test_parameters (Some sleep_1) self).
Proof.
  intros self.
  assert (Hc : config self !! "run.test_parameters"
               = Some (PList (map pair_item [("sleep", PStr "1")])))
    by reflexivity.
  assert (Hn : List.NoDup (map fst [("sleep", PStr "1")])).
  { constructor; [intros []|constructor]. }
  exact (proj1 (proj2 (test_parameters_reads_pairs self eq_refl))
           [("sleep", PStr "1")] Hc Hn).
Defined.

Lemma size_status_witness :
  0 < size (fresh_suite "suite" defaults (Some two_tests) None true).
Proof.
  assert (Hs : status (fresh_suite "suite" defaults (Some two_tests) None
                         true) = TESTS_FOUND) by reflexivity.
  exact (proj2 (proj1 (proj2 (size_status
                                (fresh_suite "suite" defaults (Some two_tests)
                                   None true)))) Hs).
Defined.

Definition bad_references : Config := {[ "resolver.references" := PStr "x" ]}.

Lemma from_config_resolver_error_witness :
  from_config (Dumped := Variant) bad_references None None
  = Raise (TestSuiteError "bad references").
Proof.
  assert (Hr : resolve
                 (from_config_merge bad_references None
                    !! "resolver.references")
                 (hint_of_cwd (Dumped := Variant))
                 (from_config_merge bad_references None
                    !! "run.ignore_missing_references")
                 (from_config_merge bad_references None)
               = Raise (JobTestSuiteReferenceResolutionError "bad references"))
    by reflexivity.
  exact (from_config_resolver_error (Dumped := Variant) bad_references None
           None (JobTestSuiteReferenceResolutionError "bad references") Hr).
Defined.

Definition one_reference : Config :=
  {[ "resolver.references" := PList [PStr "/bin/true"] ]}.

(** The suite [from_config] returns for [one_reference]. *)
Definition one_suite : TestSuite Variant :=
  let cfg := from_config_merge one_reference None in
  let rs := [resolve_one (PStr "/bin/true")] in
  set_variants (Some no_variants)
    (set_test_parameters (Some [])
       (fresh_suite "suite" cfg (Some (resolutions_to_runnables rs cfg))
          (Some rs) true)).

Lemma from_config_one_suite :
  from_config one_reference (Some "suite") None = Ok one_suite.
Proof. reflexivity. Qed.

Lemma from_config_found_tests_witness :
  from_config one_reference (Some "suite") None = Ok one_suite
  /\ status one_suite = TESTS_FOUND /\ 0 < size one_suite.
Proof.
  assert (Hi : truthy_opt (from_config_merge one_reference None
                             !! "run.ignore_missing_references") = false)
    by reflexivity.
  split; [exact from_config_one_suite|].
  exact (from_config_found_tests one_reference (Some "suite") None one_suite
           from_config_one_suite Hi).
Defined.

Lemma from_config_config_witness :
  from_config one_reference (Some "suite") None = Ok one_suite
  /\ config one_suite = from_config_merge one_reference None.
Proof.
  split; [exact from_config_one_suite|].
  exact (from_config_config one_reference (Some "suite") None one_suite
           from_config_one_suite).
Defined.

Lemma from_config_plain_witness :
  exists s : TestSuite Variant,
    from_config one_reference (Some "suite") None = Ok s
    /\ tests s
       = Some (resolutions_to_runnables [resolve_one (PStr "/bin/true")]
                 (from_config_merge one_reference None))
    /\ name s = "suite".
Proof.
  set (cfg := from_config_merge (Dumped := Variant) one_reference None).
  assert (H1 : resolve (cfg !! "resolver.references")
                 (hint_of_cwd (Dumped := Variant))
                 (cfg !! "run.ignore_missing_references") cfg
               = Ok [resolve_one (PStr "/bin/true")])
    by reflexivity.
  assert (H2 : py_iter (default (PList []) (cfg !! "run.test_parameters"))
               = Ok []) by reflexivity.
  assert (H3 : parse (Varianter_new (Dumped := Variant)) cfg = Ok no_variants)
    by reflexivity.
  assert (H4 : truthy_opt (cfg !! "run.dry_run.enabled") = false)
    by reflexivity.
  assert (H5 : resolutions_to_runnables [resolve_one (PStr "/bin/true")] cfg
               <> []).
  { intros H. apply (f_equal (@length _)) in H. discriminate H. }
  exact (from_config_plain (Dumped := Variant) one_reference (Some "suite")
           None [resolve_one (PStr "/bin/true")] no_variants H1 H2 eq_refl H3
           eq_refl H4 (or_introl H5)).
Defined.

Lemma get_test_variants_pairs_witness :
  let self := built (init_layers (Some with_variants) None) (Some two_tests) []
  in
  let out := flat_map (fun r => map (bound r) abc) two_tests in
  get_test_variants self
  = Ok (map (fun test => (test, variant test)) out,
        set_variants (Some abc) self)
  /\ tests (set_variants (Some abc) self) = tests self.
Proof.
  intros self out.
  assert (E : get_test_variants self
              = Ok (map (fun test => (test, variant test)) out,
                    set_variants (Some abc) self)) by reflexivity.
  split; [exact E|].
  exact (proj1 (get_test_variants_pairs self _ _ E)).
Defined.
